(** * link-preview-mcp-server: page-fetch-and-extract pipeline

    A shallow embedding of [src/server.ts] and of the JavaScript build of the
    same server (the variant that also registers [search_web]), followed by
    the properties of the extraction pipeline.

    Conventions of the embedding.
    - A JavaScript string is a [string]; one [ascii] stands for one UTF-16
      code unit below 256, and [String.length] is the [.length] property.
    - A JavaScript number is a [number]: NaN, the two infinities, or a finite
      value held as a rational.  Only truthiness, [ToIntegerOrInfinity] and
      comparisons with lengths are used by the program, and those are exact.
    - [undefined] is [None].
    - The cheerio document is a forest of [node]s; the selections the program
      makes are functions on that forest.
    - Asynchronous code that may reject is a computation in the monad [M]:
      it reads the environment, records every request handed to [fetch] and
      returns either a thrown exception or a value. *)

From Stdlib Require Import String Ascii List Bool Arith ZArith QArith Lia.
Import ListNotations.

Set Warnings "-register-all".

Open Scope string_scope.
Open Scope list_scope.

(* ===================================================================== *)
(** ** JavaScript strings *)
(* ===================================================================== *)

Module JsString.

(** The characters matched by [\s] and stripped by [String.prototype.trim]
    among the code units below 256: TAB, LF, VT, FF, CR, SPACE and NBSP. *)
Definition is_space (c : ascii) : bool :=
  let n := nat_of_ascii c in
  (Nat.eqb n 9 || Nat.eqb n 10 || Nat.eqb n 11 || Nat.eqb n 12
   || Nat.eqb n 13 || Nat.eqb n 32 || Nat.eqb n 160)%bool.

Fixpoint trimStart (s : string) : string :=
  match s with
  | EmptyString => EmptyString
  | String c s' => if is_space c then trimStart s' else s
  end.

Fixpoint trimEnd (s : string) : string :=
  match s with
  | EmptyString => EmptyString
  | String c s' =>
      match trimEnd s' with
      | EmptyString => if is_space c then EmptyString else String c EmptyString
      | t => String c t
      end
  end.

(** [s.trim()] *)
Definition trim (s : string) : string := trimEnd (trimStart s).

(** [s.replace(/\s+/g, " ")]: every maximal run of white space becomes one
    space.  [in_run] tells that the previous character was white space. *)
Fixpoint replace_ws_from (in_run : bool) (s : string) : string :=
  match s with
  | EmptyString => EmptyString
  | String c s' =>
      if is_space c
      then (if in_run then replace_ws_from true s'
            else String " " (replace_ws_from true s'))
      else String c (replace_ws_from false s')
  end.

Definition replace_ws (s : string) : string := replace_ws_from false s.

(** Truthiness of a string: the empty string is the only falsy one. *)
Definition truthy (s : string) : bool :=
  match s with EmptyString => false | _ => true end.

(** [x || undefined] for a string-or-undefined [x]. *)
Definition or_undefined (x : option string) : option string :=
  match x with
  | Some s => if truthy s then Some s else None
  | None => None
  end.

(** [!x] for a string-or-undefined [x]. *)
Definition falsy (x : option string) : bool :=
  match x with
  | Some s => negb (truthy s)
  | None => true
  end.

(** [s.startsWith(p)], also the attribute selector [^=]. *)
Definition starts_with (p s : string) : bool := String.prefix p s.

(** [hay.includes(needle)] *)
Fixpoint includes (needle hay : string) : bool :=
  if String.prefix needle hay then true
  else match hay with
       | EmptyString => false
       | String _ hay' => includes needle hay'
       end.

(** White-space separated tokens, as used for the [class] attribute. *)
Fixpoint tokens_from (cur : string) (s : string) : list string :=
  match s with
  | EmptyString => if truthy cur then [cur] else []
  | String c s' =>
      if is_space c
      then (if truthy cur then cur :: tokens_from EmptyString s'
            else tokens_from EmptyString s')
      else tokens_from (cur ++ String c EmptyString)%string s'
  end.

Definition tokens (s : string) : list string := tokens_from EmptyString s.

End JsString.

(* ===================================================================== *)
(** ** JavaScript numbers *)
(* ===================================================================== *)

Module JsNumber.

Inductive number : Type :=
| NaN : number
| Infinity (negative : bool) : number
| Finite (q : Q) : number.

Definition of_Z (z : Z) : number := Finite (inject_Z z).

(** Truthiness: NaN and zero are falsy. *)
Definition truthy (n : number) : bool :=
  match n with
  | NaN => false
  | Infinity _ => true
  | Finite q => negb (Qeq_bool q 0)
  end.

(** [Number(x)] for [x] a number or [undefined]. *)
Definition Number (x : option number) : number :=
  match x with
  | Some n => n
  | None => NaN
  end.

(** [n || d] *)
Definition or_default (n d : number) : number :=
  if truthy n then n else d.

(** The result of [ToIntegerOrInfinity]. *)
Inductive integer_or_infinity : Type :=
| NegInf : integer_or_infinity
| Int (z : Z) : integer_or_infinity
| PosInf : integer_or_infinity.

(** Truncation towards zero. *)
Definition truncate (q : Q) : Z := Z.quot (Qnum q) (Zpos (Qden q)).

Definition ToIntegerOrInfinity (n : number) : integer_or_infinity :=
  match n with
  | NaN => Int 0
  | Infinity true => NegInf
  | Infinity false => PosInf
  | Finite q => Int (truncate q)
  end.

(** The final index computed by [slice(0, end)] on a sequence of length
    [len]: the relative end is clamped into [0 .. len]. *)
Definition slice_to (len : nat) (e : number) : nat :=
  let l := Z.of_nat len in
  match ToIntegerOrInfinity e with
  | NegInf => 0%nat
  | PosInf => len
  | Int z => if (z <? 0)%Z then Z.to_nat (Z.max (l + z) 0)
             else Z.to_nat (Z.min z l)
  end.

(** [k <= n] for a length [k] and a number [n]. *)
Definition length_le (k : nat) (n : number) : Prop :=
  match n with
  | NaN => False
  | Infinity negative => negative = false
  | Finite q => (inject_Z (Z.of_nat k) <= q)%Q
  end.

(** [0 <= n] *)
Definition nonneg (n : number) : Prop := length_le 0 n.

End JsNumber.

Import JsNumber.

(** [s.slice(0, e)] on a string. *)
Definition string_slice0 (s : string) (e : number) : string :=
  String.substring 0 (slice_to (String.length s) e) s.

(** [a.slice(0, e)] on an array. *)
Definition array_slice0 {A : Type} (a : list A) (e : number) : list A :=
  List.firstn (slice_to (List.length a) e) a.

(* ===================================================================== *)
(** ** The parsed document and the cheerio operations the program uses *)
(* ===================================================================== *)

Module Dom.

(** A node of the tree built by [cheerio.load]. *)
Inductive node : Type :=
| Text (data : string)
| Comment (data : string)
| Element (name : string) (attribs : list (string * string))
          (children : list node).

(** The children of the document root. *)
Definition document : Type := list node.

Definition tag_of (n : node) : option string :=
  match n with
  | Element t _ _ => Some t
  | _ => None
  end.

Definition children_of (n : node) : list node :=
  match n with
  | Element _ _ cs => cs
  | _ => []
  end.

Fixpoint lookup (k : string) (l : list (string * string)) : option string :=
  match l with
  | [] => None
  | (k', v) :: l' => if String.eqb k k' then Some v else lookup k l'
  end.

(** [$(el).attr(name)] on one element. *)
Definition attr_of (a : string) (n : node) : option string :=
  match n with
  | Element _ attribs _ => lookup a attribs
  | _ => None
  end.

(** [sel.attr(name)]: the attribute of the first element of a selection. *)
Definition attr (a : string) (sel : list node) : option string :=
  match sel with
  | [] => None
  | el :: _ => attr_of a el
  end.

(** The text of one node: the data of its descendant text nodes, in
    document order. *)
Fixpoint textContent (n : node) : string :=
  match n with
  | Text d => d
  | Comment _ => EmptyString
  | Element _ _ cs => String.concat EmptyString (List.map textContent cs)
  end.

(** [sel.text()]: the texts of the selected elements, concatenated. *)
Definition text (sel : list node) : string :=
  String.concat EmptyString (List.map textContent sel).

(** A node followed by its descendants, in document order. *)
Fixpoint subtree (n : node) : list node :=
  n :: match n with
       | Element _ _ cs => List.flat_map subtree cs
       | _ => []
       end.

Definition all_nodes (doc : document) : list node :=
  List.flat_map subtree doc.

(** The simple selectors that occur in the program. *)
Inductive selector : Type :=
| ByTag (t : string)                      (* t            *)
| ByClass (c : string)                    (* .c           *)
| ByAttrPrefix (t a v : string)           (* t[a^="v"]    *)
| ByAttrEq (t a v : string).              (* t[a="v"]     *)

Definition has_tag (t : string) (n : node) : bool :=
  match n with
  | Element t' _ _ => String.eqb t t'
  | _ => false
  end.

Definition matches (s : selector) (n : node) : bool :=
  match s with
  | ByTag t => has_tag t n
  | ByClass c =>
      match n with
      | Element _ _ _ =>
          match attr_of "class" n with
          | Some v => existsb (String.eqb c) (JsString.tokens v)
          | None => false
          end
      | _ => false
      end
  | ByAttrPrefix t a v =>
      has_tag t n &&
      match attr_of a n with
      | Some x => JsString.truthy v && JsString.starts_with v x
      | None => false
      end
  | ByAttrEq t a v =>
      has_tag t n &&
      match attr_of a n with
      | Some x => String.eqb v x
      | None => false
      end
  end.

(** [$(s)]: every element of the document matching [s], in document
    order. *)
Definition select (s : selector) (doc : document) : list node :=
  List.filter (matches s) (all_nodes doc).

(** [$("t1, t2, ...")] for a list of tag names. *)
Definition is_any_tag (tags : list string) (n : node) : bool :=
  existsb (fun t => has_tag t n) tags.

(** [$("t1, t2, ...").remove()]: every matching element is detached from
    its parent, with everything below it. *)
Fixpoint remove_node (tags : list string) (n : node) : list node :=
  match n with
  | Element t a cs =>
      if is_any_tag tags n then []
      else [Element t a (List.flat_map (remove_node tags) cs)]
  | _ => [n]
  end.

Definition remove (tags : list string) (doc : document) : document :=
  List.flat_map (remove_node tags) doc.

(** Elements matching [b] below [n] (or [n] itself when [inside]) that
    have an ancestor matching [a]; [inside] tells that such an ancestor has
    been met. *)
Fixpoint under (a b : selector) (inside : bool) (n : node) : list node :=
  match n with
  | Element _ _ cs =>
      (if inside && matches b n then [n] else [])
        ++ List.flat_map (under a b (inside || matches a n)) cs
  | _ => []
  end.

(** [$(el).find("a b")]: the descendants of [el] matching [b] that have an
    ancestor matching [a]; that ancestor is below [el] or is [el] itself. *)
Definition find_under (a b : selector) (el : node) : list node :=
  List.flat_map (under a b (matches a el)) (children_of el).

(** [$(el).find(s)] for a simple selector. *)
Definition find (s : selector) (el : node) : list node :=
  List.filter (matches s) (List.flat_map subtree (children_of el)).

End Dom.

Import Dom.

(* ===================================================================== *)
(** ** Exceptions, the network and the monad of asynchronous code *)
(* ===================================================================== *)

(** A thrown value.  Everything thrown in this program is an [Error]
    instance, so the handler's catch clause reads its [message]. *)
Inductive exn : Type :=
| JsError (message : string).

Definition message_of (e : exn) : string :=
  match e with JsError m => m end.

(** What the program reads of a node-fetch response: [response.ok],
    [response.headers.get("content-type")] ([null] is [None]) and the
    outcome of [await response.text()] once it settles.  The abort timer is
    cleared before the body is read, so a body that never arrives leaves the
    call pending; that is not an outcome here, and what is said about the
    result of a call is said about a call that settles. *)
Record Response : Type := mkResponse {
  ok : bool;
  content_type : option string;
  body : exn + string
}.

(** One call of [fetch]: the URL and the delay after which it is aborted. *)
Record Request : Type := mkRequest {
  req_url : string;
  req_timeoutMs : Z
}.

(** The collaborators of the program.  [fetch] answers a request given the
    requests issued before it, and either rejects (abort on timeout, DNS,
    connection or URL failure) or resolves to a response.  [URL_origin u] is
    [new URL(u).origin], [None] when the constructor throws. *)
Record Env : Type := mkEnv {
  fetch : list Request -> Request -> exn + Response;
  cheerio_load : string -> document;
  URL_origin : string -> option string;
  encodeURIComponent : string -> string
}.

(** A computation reads the environment, extends the log of issued requests
    and either throws or returns. *)
Definition M (A : Type) : Type :=
  Env -> list Request -> (exn + A) * list Request.

Definition ret {A : Type} (a : A) : M A :=
  fun _ log => (inr a, log).

Definition throw {A : Type} (e : exn) : M A :=
  fun _ log => (inl e, log).

Definition bind {A B : Type} (m : M A) (k : A -> M B) : M B :=
  fun env log =>
    match m env log with
    | (inl e, log') => (inl e, log')
    | (inr a, log') => k a env log'
    end.

(** [try { m } catch (e) { h e }] *)
Definition try_catch {A : Type} (m : M A) (h : exn -> M A) : M A :=
  fun env log =>
    match m env log with
    | (inl e, log') => h e env log'
    | (inr a, log') => (inr a, log')
    end.

(** Awaiting something that has already been decided. *)
Definition settle {A : Type} (r : exn + A) : M A :=
  match r with
  | inl e => throw e
  | inr a => ret a
  end.

Definition ask : M Env := fun env log => (inr env, log).

Declare Scope js_scope.
Delimit Scope js_scope with js.
Notation "x <- m ;; k" := (bind m (fun x => k))
  (at level 61, m at next level, right associativity) : js_scope.
Open Scope js_scope.

(** [fetchWithTimeout(url, timeoutMs)]: the request is handed to [fetch]
    with its abort delay; the timer is cleared on both paths and a rejection
    is thrown again unchanged.  The fixed headers sent with the request
    ([User-Agent], [Accept], [Accept-Language], whose values differ between
    [src/server.ts] and the JavaScript build) are not recorded, so an [Env]
    stands for the network as one build sees it. *)
Definition fetchWithTimeout (url : string) (timeoutMs : Z) : M Response :=
  fun env log =>
    let rq := mkRequest url timeoutMs in
    (fetch env log rq, log ++ [rq]).

(** [new URL(url).origin] *)
Definition new_URL_origin (url : string) : M string :=
  fun env log =>
    match URL_origin env url with
    | Some o => (inr o, log)
    | None => (inl (JsError "Invalid URL"), log)
    end.

(** [getFavicon(url)] *)
Definition getFavicon (url : string) : M (option string) :=
  try_catch
    (origin <- new_URL_origin url ;;
     let faviconUrl := (origin ++ "/favicon.ico")%string in
     response <- fetchWithTimeout faviconUrl 3000 ;;
     if ok response then ret (Some faviconUrl) else ret None)
    (fun _ => ret None).

(* ===================================================================== *)
(** ** fetchLinkPreview *)
(* ===================================================================== *)

Record LinkPreview : Type := mkLinkPreview {
  url : string;
  contentType : option string;
  language : option string;
  title : option string;
  description : option string;
  image : option string;
  siteName : option string;
  type : option string;
  urlCanonical : option string;
  twitterCard : option string;
  favicon : option string
}.

Definition set_title (p : LinkPreview) (v : option string) : LinkPreview :=
  mkLinkPreview (url p) (contentType p) (language p) v (description p)
    (image p) (siteName p) (type p) (urlCanonical p) (twitterCard p)
    (favicon p).

Definition set_description (p : LinkPreview) (v : option string)
  : LinkPreview :=
  mkLinkPreview (url p) (contentType p) (language p) (title p) v
    (image p) (siteName p) (type p) (urlCanonical p) (twitterCard p)
    (favicon p).

Definition set_image (p : LinkPreview) (v : option string) : LinkPreview :=
  mkLinkPreview (url p) (contentType p) (language p) (title p)
    (description p) v (siteName p) (type p) (urlCanonical p) (twitterCard p)
    (favicon p).

Definition set_siteName (p : LinkPreview) (v : option string) : LinkPreview :=
  mkLinkPreview (url p) (contentType p) (language p) (title p)
    (description p) (image p) v (type p) (urlCanonical p) (twitterCard p)
    (favicon p).

Definition set_type (p : LinkPreview) (v : option string) : LinkPreview :=
  mkLinkPreview (url p) (contentType p) (language p) (title p)
    (description p) (image p) (siteName p) v (urlCanonical p) (twitterCard p)
    (favicon p).

Definition set_urlCanonical (p : LinkPreview) (v : option string)
  : LinkPreview :=
  mkLinkPreview (url p) (contentType p) (language p) (title p)
    (description p) (image p) (siteName p) (type p) v (twitterCard p)
    (favicon p).

Definition set_twitterCard (p : LinkPreview) (v : option string)
  : LinkPreview :=
  mkLinkPreview (url p) (contentType p) (language p) (title p)
    (description p) (image p) (siteName p) (type p) (urlCanonical p) v
    (favicon p).

Definition set_favicon (p : LinkPreview) (v : option string) : LinkPreview :=
  mkLinkPreview (url p) (contentType p) (language p) (title p)
    (description p) (image p) (siteName p) (type p) (urlCanonical p)
    (twitterCard p) v.

(** The callback of [$('meta[property^="og:"]').each]. *)
Definition og_step (preview : LinkPreview) (el : node) : LinkPreview :=
  match attr_of "property" el, attr_of "content" el with
  | Some property, Some content =>
      if negb (JsString.truthy property) || negb (JsString.truthy content)
      then preview
      else if String.eqb property "og:title"
      then set_title preview (Some content)
      else if String.eqb property "og:description"
      then set_description preview (Some content)
      else if String.eqb property "og:image"
      then set_image preview (Some content)
      else if String.eqb property "og:site_name"
      then set_siteName preview (Some content)
      else if String.eqb property "og:type"
      then set_type preview (Some content)
      else if String.eqb property "og:url"
      then set_urlCanonical preview (Some content)
      else preview
  | _, _ => preview
  end.

(** The callback of [$('meta[name^="twitter:"]').each]. *)
Definition twitter_step (preview : LinkPreview) (el : node) : LinkPreview :=
  match attr_of "name" el, attr_of "content" el with
  | Some name, Some content =>
      if negb (JsString.truthy name) || negb (JsString.truthy content)
      then preview
      else if String.eqb name "twitter:card"
      then set_twitterCard preview (Some content)
      else if String.eqb name "twitter:title"
              && JsString.falsy (title preview)
      then set_title preview (Some content)
      else if String.eqb name "twitter:description"
              && JsString.falsy (description preview)
      then set_description preview (Some content)
      else if String.eqb name "twitter:image"
              && JsString.falsy (image preview)
      then set_image preview (Some content)
      else preview
  | _, _ => preview
  end.

(** The loop over [meta[name="description"]], left at the first element
    whose content is truthy. *)
Fixpoint first_content (els : list node) : option string :=
  match els with
  | [] => None
  | el :: rest =>
      match attr_of "content" el with
      | Some c => if JsString.truthy c then Some c else first_content rest
      | None => first_content rest
      end
  end.

Definition og_selector : selector := ByAttrPrefix "meta" "property" "og:".
Definition twitter_selector : selector := ByAttrPrefix "meta" "name" "twitter:".
Definition description_selector : selector :=
  ByAttrEq "meta" "name" "description".

Definition initial_preview (u : string) (response : Response)
  (doc : document) : LinkPreview :=
  mkLinkPreview u
    (JsString.or_undefined (content_type response))
    (JsString.or_undefined (attr "lang" (select (ByTag "html") doc)))
    None None None None None None None None.

Definition scan_og (doc : document) (p : LinkPreview) : LinkPreview :=
  List.fold_left og_step (select og_selector doc) p.

Definition scan_twitter (doc : document) (p : LinkPreview) : LinkPreview :=
  List.fold_left twitter_step (select twitter_selector doc) p.

Definition fallback_title (doc : document) (p : LinkPreview) : LinkPreview :=
  if JsString.falsy (title p)
  then set_title p
         (JsString.or_undefined
            (Some (JsString.trim (text (select (ByTag "title") doc)))))
  else p.

Definition fallback_description (doc : document) (p : LinkPreview)
  : LinkPreview :=
  if JsString.falsy (description p)
  then match first_content (select description_selector doc) with
       | Some c => set_description p (Some c)
       | None => p
       end
  else p.

(** Everything [fetchLinkPreview] does between loading the document and
    probing the favicon. *)
Definition extract_preview (u : string) (response : Response)
  (doc : document) : LinkPreview :=
  fallback_description doc
    (fallback_title doc
       (scan_twitter doc
          (scan_og doc (initial_preview u response doc)))).

(** [fetchLinkPreview(url)] *)
Definition fetchLinkPreview (u : string) : M LinkPreview :=
  response <- fetchWithTimeout u 15000 ;;
  html <- settle (body response) ;;
  env <- ask ;;
  let doc := cheerio_load env html in
  let preview := extract_preview u response doc in
  icon <- getFavicon u ;;
  ret (set_favicon preview icon).

(* ===================================================================== *)
(** ** searchWeb *)
(* ===================================================================== *)

Record SearchResult : Type := mkSearchResult {
  result_title : string;
  result_url : string;
  result_snippet : string
}.

(** What the callback of [$(".result").each] reads from one block. *)
Definition block_url (el : node) : option string :=
  attr "href" (find_under (ByClass "result__title") (ByTag "a") el).

Definition block_title (el : node) : string :=
  JsString.trim (text (find_under (ByClass "result__title") (ByTag "a") el)).

Definition block_snippet (el : node) : string :=
  JsString.trim (text (find (ByClass "result__snippet") el)).

(** The test [url && title]. *)
Definition block_valid (el : node) : bool :=
  negb (JsString.falsy (block_url el)) && JsString.truthy (block_title el).

(** The callback of [$(".result").each]: [results.push] on a valid block. *)
Definition result_step (results : list SearchResult) (el : node)
  : list SearchResult :=
  match block_url el with
  | Some u =>
      if JsString.truthy u && JsString.truthy (block_title el)
      then results ++ [mkSearchResult (block_title el) u (block_snippet el)]
      else results
  | None => results
  end.

Definition extract_results (doc : document) : list SearchResult :=
  List.fold_left result_step (select (ByClass "result") doc) [].

(** [searchWeb(query)] *)
Definition searchWeb (query : string) : M (list SearchResult) :=
  env <- ask ;;
  let searchUrl :=
    ("https://duckduckgo.com/html/?q=" ++ encodeURIComponent env query
       ++ "&kl=us-en")%string in
  response <- fetchWithTimeout searchUrl 10000 ;;
  html <- settle (body response) ;;
  let doc := cheerio_load env html in
  ret (array_slice0 (extract_results doc) (of_Z 10)).

(* ===================================================================== *)
(** ** The tool-call handler *)
(* ===================================================================== *)

(** A JSON value, before [JSON.stringify(v, null, 2)] prints it. *)
Inductive json : Type :=
| JString (s : string)
| JArray (items : list json)
| JObject (members : list (string * json)).

(** The text of the single content item of a tool result: either a plain
    string or the printing of a JSON value. *)
Inductive payload : Type :=
| Plain (s : string)
| Stringified (j : json).

Record CallToolResult : Type := mkResult {
  content_text : payload;
  isError : bool
}.

(** The arguments of a call.  Each is typed as the tool's input schema
    declares it and may be missing. *)
Record Arguments_ : Type := mkArgs {
  arg_url : option string;
  arg_query : option string;
  arg_maxLength : option number;
  arg_numResults : option number
}.

Definition no_args : Arguments_ := mkArgs None None None None.

(** [String(x)] for [x] a string or [undefined]. *)
Definition String_ (x : option string) : string :=
  match x with
  | Some s => s
  | None => "undefined"
  end.

Definition member (k : string) (v : option string)
  : list (string * json) :=
  match v with
  | Some s => [(k, JString s)]
  | None => []
  end.

(** The object printed by [JSON.stringify(preview, null, 2)]: a property
    whose value is [undefined] is left out.  The order of the members is
    not tracked. *)
Definition preview_json (p : LinkPreview) : json :=
  JObject
    ([("url", JString (url p))]
       ++ member "contentType" (contentType p)
       ++ member "language" (language p)
       ++ member "title" (title p)
       ++ member "description" (description p)
       ++ member "image" (image p)
       ++ member "siteName" (siteName p)
       ++ member "type" (type p)
       ++ member "urlCanonical" (urlCanonical p)
       ++ member "twitterCard" (twitterCard p)
       ++ member "favicon" (favicon p)).

Definition result_json (r : SearchResult) : json :=
  JObject [("title", JString (result_title r));
           ("url", JString (result_url r));
           ("snippet", JString (result_snippet r))].

Definition error_json (message : string) : json :=
  JObject [("error", JString message)].

(** The member [k] of a JSON object, if it has one. *)
Fixpoint json_lookup (k : string) (members : list (string * json))
  : option json :=
  match members with
  | [] => None
  | (k', v) :: rest => if String.eqb k k' then Some v else json_lookup k rest
  end.

Definition json_member (k : string) (j : json) : option json :=
  match j with
  | JObject members => json_lookup k members
  | _ => None
  end.

(** The elements removed before text extraction, in [src/server.ts] and in
    the JavaScript build. *)
Definition boilerplate_ts : list string :=
  ["script"; "style"; "nav"; "header"; "footer"; "iframe"; "noscript";
   "aside"; "form"; "button"].

Definition boilerplate_js : list string :=
  ["script"; "style"; "nav"; "header"; "footer"; "iframe"; "noscript";
   "aside"].

(** [a || b] on strings. *)
Definition or_else (a b : string) : string :=
  if JsString.truthy a then a else b.

(** The text of the [get_page_content] branch, from the loaded document. *)
Definition page_text (boilerplate : list string) (doc : document) : string :=
  let doc' := remove boilerplate doc in
  or_else
    (or_else (text (select (ByTag "article") doc'))
       (text (select (ByTag "main") doc')))
    (text (select (ByTag "body") doc')).

Definition extract_content (boilerplate : list string) (doc : document)
  (maxLength : number) : string :=
  let content := page_text boilerplate doc in
  let content := JsString.trim (JsString.replace_ws content) in
  string_slice0 content maxLength.

(** [Number(args?.maxLength) || 5000] *)
Definition effective_maxLength (a : Arguments_) : number :=
  or_default (Number (arg_maxLength a)) (of_Z 5000).

(** [Number(args?.numResults) || 10] *)
Definition effective_numResults (a : Arguments_) : number :=
  or_default (Number (arg_numResults a)) (of_Z 10).

Definition fetch_link_preview_branch (a : Arguments_) : M CallToolResult :=
  let u := String_ (arg_url a) in
  if negb (JsString.truthy u) then throw (JsError "URL is required")
  else
    preview <- fetchLinkPreview u ;;
    ret (mkResult (Stringified (preview_json preview)) false).

Definition search_web_branch (a : Arguments_) : M CallToolResult :=
  let query := String_ (arg_query a) in
  let numResults := effective_numResults a in
  found <- searchWeb query ;;
  let results := array_slice0 found numResults in
  ret (mkResult (Stringified (JArray (List.map result_json results))) false).

Definition get_page_content_branch (boilerplate : list string)
  (a : Arguments_) : M CallToolResult :=
  let u := String_ (arg_url a) in
  let maxLength := effective_maxLength a in
  response <- fetchWithTimeout u 15000 ;;
  html <- settle (body response) ;;
  env <- ask ;;
  let doc := cheerio_load env html in
  ret (mkResult (Plain (extract_content boilerplate doc maxLength)) false).

(** The catch clause of the handler. *)
Definition on_error (e : exn) : M CallToolResult :=
  ret (mkResult (Stringified (error_json (message_of e))) true).

Definition unknown_tool (name : string) : M CallToolResult :=
  throw (JsError ("Unknown tool: " ++ name)%string).

(** The [CallToolRequestSchema] handler of [src/server.ts]. *)
Definition call_tool_ts (name : string) (a : Arguments_) : M CallToolResult :=
  try_catch
    (if String.eqb name "fetch_link_preview"
     then fetch_link_preview_branch a
     else if String.eqb name "get_page_content"
     then get_page_content_branch boilerplate_ts a
     else unknown_tool name)
    on_error.

(** The [CallToolRequestSchema] handler of the JavaScript build. *)
Definition call_tool_js (name : string) (a : Arguments_) : M CallToolResult :=
  try_catch
    (if String.eqb name "fetch_link_preview"
     then fetch_link_preview_branch a
     else if String.eqb name "search_web"
     then search_web_branch a
     else if String.eqb name "get_page_content"
     then get_page_content_branch boilerplate_js a
     else unknown_tool name)
    on_error.

(** Running a call from an empty request log. *)
Definition run {A : Type} (m : M A) (env : Env) : (exn + A) * list Request :=
  m env [].

(* ===================================================================== *)
(** ** Notions used to state the properties *)
(* ===================================================================== *)

(** A string made of white space only. *)
Fixpoint all_space (s : string) : bool :=
  match s with
  | EmptyString => true
  | String c s' => JsString.is_space c && all_space s'
  end.

Definition attr_is (a v : string) (n : node) : bool :=
  match attr_of a n with
  | Some x => String.eqb x v
  | None => false
  end.

Definition has_content (n : node) : bool :=
  negb (JsString.falsy (attr_of "content" n)).

(** The content attribute, read as a string. *)
Definition content_of (n : node) : string :=
  match attr_of "content" n with
  | Some c => c
  | None => EmptyString
  end.

(** [<meta property="og:title" content="...">] with non-empty content. *)
Definition is_og_title (n : node) : bool :=
  has_tag "meta" n && attr_is "property" "og:title" n && has_content n.

(** [<meta name="twitter:title" content="...">] with non-empty content. *)
Definition is_twitter_title (n : node) : bool :=
  has_tag "meta" n && attr_is "name" "twitter:title" n && has_content n.

Definition og_title_tags (doc : document) : list node :=
  List.filter is_og_title (all_nodes doc).

Definition twitter_title_tags (doc : document) : list node :=
  List.filter is_twitter_title (all_nodes doc).

(** The last element of a list, if any. *)
Fixpoint last_of {A : Type} (l : list A) : option A :=
  match l with
  | [] => None
  | [a] => Some a
  | _ :: l' => last_of l'
  end.

(** A field that held a value still holds that value. *)
Definition kept (before after : option string) : Prop :=
  match before with
  | Some _ => after = before
  | None => True
  end.

(** The preview once the OpenGraph scan is over. *)
Definition after_og (u : string) (r : Response) (doc : document)
  : LinkPreview :=
  scan_og doc (initial_preview u r doc).

(** The preview after the first [k] OpenGraph tags. *)
Definition og_prefix (k : nat) (u : string) (r : Response) (doc : document)
  : LinkPreview :=
  List.fold_left og_step (List.firstn k (select og_selector doc))
    (initial_preview u r doc).

(** The preview after the OpenGraph scan and the first [k] Twitter tags. *)
Definition twitter_prefix (k : nat) (u : string) (r : Response)
  (doc : document) : LinkPreview :=
  List.fold_left twitter_step (List.firstn k (select twitter_selector doc))
    (after_og u r doc).

(** No field set by the scans holds the empty string. *)
Definition no_empty (o : option string) : Prop := o <> Some EmptyString.

Definition well_formed (p : LinkPreview) : Prop :=
  no_empty (title p) /\ no_empty (description p) /\ no_empty (image p).

(** Two nodes that differ at most in the attributes and content of their
    [script] elements. *)
Inductive script_variant : node -> node -> Prop :=
| sv_text : forall d, script_variant (Text d) (Text d)
| sv_comment : forall d, script_variant (Comment d) (Comment d)
| sv_script : forall a cs a' cs',
    script_variant (Element "script" a cs) (Element "script" a' cs')
| sv_element : forall t a cs cs',
    List.Forall2 script_variant cs cs' ->
    script_variant (Element t a cs) (Element t a cs').

(** The record [searchWeb] pushes for a valid block. *)
Definition record_of (el : node) : SearchResult :=
  mkSearchResult (block_title el)
    (match block_url el with Some u => u | None => EmptyString end)
    (block_snippet el).

(** The favicon probe of [u] does not find an icon: the URL is malformed,
    the request is rejected (timeout, network failure) or the status is not
    a success. *)
Definition probe_fails (env : Env) (log : list Request) (u : string) : Prop :=
  match URL_origin env u with
  | None => True
  | Some o =>
      match fetch env log (mkRequest (o ++ "/favicon.ico")%string 3000) with
      | inl _ => True
      | inr r => ok r = false
      end
  end.

(** The text of a tool result when it is a plain string. *)
Definition plain_text (res : CallToolResult) : option string :=
  match content_text res with
  | Plain s => Some s
  | Stringified _ => None
  end.

(** The JSON value of a tool result when it is a printed value. *)
Definition json_of (res : CallToolResult) : option json :=
  match content_text res with
  | Plain _ => None
  | Stringified j => Some j
  end.

(** *** Sample documents and environments *)

Definition meta_property (p c : string) : node :=
  Element "meta" [("property", p); ("content", c)] [].

Definition meta_name (n c : string) : node :=
  Element "meta" [("name", n); ("content", c)] [].

Definition page (head body : list node) : document :=
  [Element "html" [("lang", "en")]
     [Element "head" [] head; Element "body" [] body]].

(** An environment in which every request is answered with status [status]
    and a body that parses to [doc]. *)
Definition serving (status : bool) (doc : document) : Env :=
  mkEnv (fun _ _ => inr (mkResponse status (Some "text/html") (inr "<html>")))
        (fun _ => doc)
        (fun u => Some u)
        (fun s => s).

(** An environment whose page request succeeds and whose favicon probe is
    answered with a 404. *)
Definition serving_without_icon (doc : document) : Env :=
  mkEnv (fun _ rq =>
           inr (mkResponse (Z.eqb (req_timeoutMs rq) 15000)
                  (Some "text/html") (inr "<html>")))
        (fun _ => doc)
        (fun u => Some u)
        (fun s => s).

Definition doc_two_og_titles : document :=
  page [meta_property "og:title" "First";
        meta_property "og:title" "Second"] [].

Definition doc_both_titles : document :=
  page [meta_name "twitter:title" "From Twitter";
        meta_property "og:title" "From OpenGraph";
        Element "title" [] [Text "From the title element"]] [].

Definition doc_untitled : document :=
  page [Element "title" [] [Text "  "]] [Element "p" [] [Text "text"]].

Definition doc_script_echo : document :=
  page [] [Element "script" [] [Text "hi"]; Element "p" [] [Text "hi"]].

Definition doc_script_other : document :=
  page [] [Element "script" [("defer", "defer")] [Text "track()"];
           Element "p" [] [Text "hi"]].

Definition search_block (t href snippet : string) : node :=
  Element "div" [("class", "result results_links")]
    [Element "h2" [("class", "result__title")]
       [Element "a" [("href", href)] [Text t]];
     Element "a" [("class", "result__snippet")] [Text snippet]].

Definition doc_eleven_results : document :=
  page []
    (List.map (fun t => search_block t ("https://example.org/" ++ t)%string "s")
       ["r01"; "r02"; "r03"; "r04"; "r05"; "r06"; "r07"; "r08"; "r09"; "r10";
        "r11"]).

(** A results page whose single block carries both classes: the block is
    itself the [.result__title] ancestor of its link. *)
Definition doc_title_block : document :=
  page []
    [Element "div" [("class", "result result__title")]
       [Element "a" [("href", "https://example.org/x")] [Text "X"]]].

Definition url_args (u : string) : Arguments_ :=
  mkArgs (Some u) None None None.

Definition content_args (u : string) (maxLength : number) : Arguments_ :=
  mkArgs (Some u) None (Some maxLength) None.

Definition search_args (q : string) (numResults : number) : Arguments_ :=
  mkArgs None (Some q) None (Some numResults).

(* ===================================================================== *)
(** ** The tool list and further notions *)
(* ===================================================================== *)

(** One entry of the answer to [ListToolsRequestSchema]: the name of the
    tool, the properties of its input schema with their types, and the
    required ones.  The prose descriptions are left out. *)
Record Tool : Type := mkTool {
  tool_name : string;
  tool_properties : list (string * string);
  tool_required : list string
}.

(** The tools listed by [src/server.ts]. *)
Definition list_tools_ts : list Tool :=
  [mkTool "fetch_link_preview" [("url", "string")] ["url"];
   mkTool "get_page_content" [("url", "string"); ("maxLength", "number")]
     ["url"]].

(** The tools listed by the JavaScript build. *)
Definition list_tools_js : list Tool :=
  [mkTool "fetch_link_preview" [("url", "string")] ["url"];
   mkTool "search_web" [("query", "string"); ("numResults", "number")]
     ["query"];
   mkTool "get_page_content" [("url", "string"); ("maxLength", "number")]
     ["url"]].

Definition listed (tools : list Tool) (name : string) : bool :=
  existsb (fun t => String.eqb name (tool_name t)) tools.

(** [<meta property=prop content=...>] with non-empty content. *)
Definition is_og_tag (prop : string) (n : node) : bool :=
  has_tag "meta" n && attr_is "property" prop n && has_content n.

(** [<meta name=name content=...>] with non-empty content. *)
Definition is_named_tag (name : string) (n : node) : bool :=
  has_tag "meta" n && attr_is "name" name n && has_content n.

(** The content of the last, and of the first, node of the document that
    satisfies [f]. *)
Definition last_content (f : node -> bool) (doc : document)
  : option string :=
  option_map content_of (last_of (List.filter f (all_nodes doc))).

Definition first_content_of (f : node -> bool) (doc : document)
  : option string :=
  option_map content_of (List.hd_error (List.filter f (all_nodes doc))).

(** The first of two optional values that is present. *)
Definition or_opt (a b : option string) : option string :=
  match a with
  | Some x => Some x
  | None => b
  end.

(** Every white-space character of [s] is a plain space, no two of them
    are adjacent, and [s] does not start with one when [after_space]. *)
Fixpoint single_spaced (after_space : bool) (s : string) : bool :=
  match s with
  | EmptyString => true
  | String c s' =>
      if JsString.is_space c
      then Ascii.eqb c " "%char && negb after_space && single_spaced true s'
      else single_spaced false s'
  end.

Fixpoint ends_with_space (s : string) : bool :=
  match s with
  | EmptyString => false
  | String c EmptyString => JsString.is_space c
  | String _ s' => ends_with_space s'
  end.

Definition starts_with_space (s : string) : bool :=
  match s with
  | EmptyString => false
  | String c _ => JsString.is_space c
  end.

(** The page text after [replace(/\s+/g, " ").trim()]. *)
Definition normalised_text (boilerplate : list string) (doc : document)
  : string :=
  JsString.trim (JsString.replace_ws (page_text boilerplate doc)).

(** The string value of a JSON member is a non-empty string. *)
Definition nonempty_string_member (m : string * json) : Prop :=
  exists s, snd m = JString s /\ s <> EmptyString.

(** The timeouts the program passes to [fetchWithTimeout]. *)
Definition known_timeout (rq : Request) : Prop :=
  req_timeoutMs rq = 15000%Z \/ req_timeoutMs rq = 10000%Z
  \/ req_timeoutMs rq = 3000%Z.

(** The URL [searchWeb] requests for a query. *)
Definition search_url (env : Env) (q : string) : string :=
  ("https://duckduckgo.com/html/?q=" ++ encodeURIComponent env q
     ++ "&kl=us-en")%string.

(** The blocks of a results page that have a link and a title. *)
Definition valid_blocks (doc : document) : list node :=
  List.filter block_valid (select (ByClass "result") doc).

(** The first request of a call either fails with [e] (the request is
    rejected, or reading the body is), or gives a response and its body. *)
Definition page_outcome (env : Env) (rq : Request)
  : exn + (Response * string) :=
  match fetch env [] rq with
  | inl e => inl e
  | inr r => match body r with
             | inl e => inl e
             | inr html => inr (r, html)
             end
  end.

(** A result that is not an error report. *)
Definition plain_success (res : CallToolResult) : Prop :=
  isError res = false
  /\ forall msg, content_text res <> Stringified (error_json msg).

(** An environment for the site [http://a]: every request is answered with
    a success status and a body that parses to [doc], and the origin of a
    URL below [http://a/] is [http://a]; other URLs do not parse. *)
Definition serving_site (doc : document) : Env :=
  mkEnv (fun _ _ => inr (mkResponse true (Some "text/html") (inr "<html>")))
        (fun _ => doc)
        (fun u => if String.prefix "http://a/" u then Some "http://a"
                  else None)
        (fun s => s).

(** An environment whose network rejects every request. *)
Definition offline (doc : document) : Env :=
  mkEnv (fun _ _ => inl (JsError "request failed"))
        (fun _ => doc)
        (fun u => Some u)
        (fun s => s).

Definition doc_fallbacks : document :=
  page [meta_name "description" EmptyString;
        meta_name "description" "Plain description";
        meta_name "twitter:title" "First tweet";
        meta_name "twitter:title" "Second tweet";
        meta_name "twitter:card" "summary";
        meta_name "twitter:card" "summary_large_image";
        meta_property "og:image" "http://a/og.png";
        meta_name "twitter:image" "http://a/tw.png";
        meta_property "og:locale" "en_US"]
       [Element "article" [] [Text "  Read   me "];
        Element "nav" [] [Text "menu"];
        Element "form" [] [Element "button" [] [Text "Send"]]].

(* ===================================================================== *)
(** ** Facts about strings *)
(* ===================================================================== *)

Section StringFacts.

Import JsString.

Lemma substring_0_length (n : nat) (s : string) :
  String.length (String.substring 0 n s) = Nat.min n (String.length s).
Proof.
  revert n; induction s as [|c s IH]; intros [|n]; simpl; auto.
Qed.

Lemma substring_0_min (n : nat) (s : string) :
  String.substring 0 (Nat.min n (String.length s)) s = String.substring 0 n s.
Proof.
  revert n; induction s as [|c s IH]; intros [|n]; simpl; auto.
  rewrite IH. reflexivity.
Qed.

Lemma trimStart_empty (s : string) :
  trimStart s = EmptyString <-> all_space s = true.
Proof.
  induction s as [|c s IH]; simpl.
  - tauto.
  - destruct (is_space c); simpl.
    + exact IH.
    + split; discriminate.
Qed.

Lemma trimStart_head (s : string) :
  match trimStart s with
  | EmptyString => True
  | String c _ => is_space c = false
  end.
Proof.
  induction s as [|c s IH]; simpl; auto.
  destruct (is_space c) eqn:E; auto.
Qed.

Lemma trimEnd_head (c : ascii) (s : string) :
  is_space c = false -> trimEnd (String c s) <> EmptyString.
Proof.
  intros H; simpl. destruct (trimEnd s); [rewrite H|]; discriminate.
Qed.

Lemma trim_empty (s : string) :
  trim s = EmptyString <-> all_space s = true.
Proof.
  unfold trim. rewrite <- trimStart_empty.
  pose proof (trimStart_head s) as H.
  destruct (trimStart s) as [|c t] eqn:E.
  - simpl; tauto.
  - split; [|discriminate].
    intros K. exfalso. exact (trimEnd_head c t H K).
Qed.

Lemma all_space_app (s t : string) :
  all_space (s ++ t)%string = all_space s && all_space t.
Proof.
  induction s as [|c s IH]; simpl; auto.
  rewrite IH. apply andb_assoc.
Qed.

Lemma concat_empty_cons (s : string) (l : list string) :
  String.concat EmptyString (s :: l)
  = (s ++ String.concat EmptyString l)%string.
Proof.
  destruct l as [|t l]; simpl; auto.
  clear. induction s; simpl; congruence.
Qed.

Lemma all_space_concat (l : list string) :
  List.Forall (fun s => all_space s = true) l ->
  all_space (String.concat EmptyString l) = true.
Proof.
  induction 1 as [|s l Hs Hl IH].
  - reflexivity.
  - rewrite concat_empty_cons, all_space_app, Hs, IH. reflexivity.
Qed.

Lemma truthy_false (s : string) : truthy s = false <-> s = EmptyString.
Proof. destruct s; simpl; split; congruence. Qed.

Lemma truthy_true (s : string) : truthy s = true <-> s <> EmptyString.
Proof. destruct s; simpl; split; congruence. Qed.

End StringFacts.

(* ===================================================================== *)
(** ** Facts about numbers and slices *)
(* ===================================================================== *)

Section NumberFacts.

Lemma truncate_nonneg (q : Q) : (0 <= q)%Q -> (0 <= truncate q)%Z.
Proof.
  unfold Qle, truncate; simpl. intros H.
  apply Z.quot_pos; lia.
Qed.

Lemma truncate_le (q : Q) : (0 <= q)%Q -> (inject_Z (truncate q) <= q)%Q.
Proof.
  unfold Qle, truncate; simpl. intros H.
  rewrite Z.quot_div_nonneg by lia.
  rewrite Z.mul_1_r in *.
  rewrite Z.mul_comm. apply Z.mul_div_le. lia.
Qed.

Lemma slice_to_le_len (len : nat) (e : number) : (slice_to len e <= len)%nat.
Proof.
  unfold slice_to.
  destruct (ToIntegerOrInfinity e) as [|z|]; try lia.
  destruct (z <? 0)%Z eqn:E; lia.
Qed.

Lemma slice_to_bound (len : nat) (e : number) :
  nonneg e -> length_le (slice_to len e) e.
Proof.
  unfold nonneg, length_le, slice_to.
  destruct e as [|[|]|q]; simpl; auto.
  intros H.
  assert (H0 : (0 <= q)%Q) by exact H.
  pose proof (truncate_nonneg q H0) as Hz.
  pose proof (truncate_le q H0) as Hq.
  destruct (truncate q <? 0)%Z eqn:E; [apply Z.ltb_lt in E; lia|].
  eapply Qle_trans; [|exact Hq].
  rewrite <- Zle_Qle. lia.
Qed.

Lemma string_slice0_length (s : string) (e : number) :
  String.length (string_slice0 s e) = slice_to (String.length s) e.
Proof.
  unfold string_slice0. rewrite substring_0_length.
  pose proof (slice_to_le_len (String.length s) e). lia.
Qed.

Lemma array_slice0_length {A : Type} (a : list A) (e : number) :
  List.length (array_slice0 a e) = slice_to (List.length a) e.
Proof.
  unfold array_slice0. rewrite List.length_firstn.
  pose proof (slice_to_le_len (List.length a) e). lia.
Qed.

Lemma slice_to_integer (len : nat) (n : nat) :
  slice_to len (of_Z (Z.of_nat n)) = Nat.min n len.
Proof.
  unfold slice_to, of_Z, ToIntegerOrInfinity, truncate; simpl.
  rewrite Z.quot_1_r.
  destruct (Z.of_nat n <? 0)%Z eqn:E; [apply Z.ltb_lt in E; lia|].
  lia.
Qed.

Lemma falsy_number_default (n d : number) :
  truthy n = false -> or_default n d = d.
Proof. unfold or_default; intros ->; reflexivity. Qed.

Lemma truthy_number_kept (n d : number) :
  truthy n = true -> or_default n d = n.
Proof. unfold or_default; intros ->; reflexivity. Qed.

End NumberFacts.

(* ===================================================================== *)
(** ** Facts about the scans of fetchLinkPreview *)
(* ===================================================================== *)

Ltac break_if :=
  match goal with
  | |- context [if ?b then _ else _] => destruct b eqn:?
  end.

Section ScanFacts.

Lemma last_of_cons {A : Type} (a : A) (l : list A) :
  last_of (a :: l)
  = match last_of l with Some x => Some x | None => Some a end.
Proof.
  destruct l as [|b l]; [reflexivity|].
  change (last_of (a :: b :: l)) with (last_of (b :: l)).
  destruct (last_of (b :: l)) eqn:E; auto.
  exfalso. revert b E. induction l as [|c l IH]; intros b E.
  - discriminate.
  - exact (IH c E).
Qed.

Lemma last_of_In {A : Type} (l : list A) (x : A) :
  last_of l = Some x -> List.In x l.
Proof.
  induction l as [|a l IH]; [discriminate|].
  rewrite last_of_cons. destruct (last_of l).
  - intros E; right; apply IH; exact E.
  - intros E; left; congruence.
Qed.

Lemma last_of_nonempty {A : Type} (l : list A) :
  l <> [] -> exists x, last_of l = Some x.
Proof.
  destruct l as [|a l]; [congruence|]. intros _.
  rewrite last_of_cons. destruct (last_of l); eauto.
Qed.

Lemma kept_refl (a : option string) : kept a a.
Proof. destruct a; simpl; auto. Qed.

Lemma kept_eq (a b : option string) : a = b -> kept a b.
Proof. intros ->; apply kept_refl. Qed.

Lemma kept_trans (a b c : option string) : kept a b -> kept b c -> kept a c.
Proof.
  unfold kept. destruct a; auto. intros ->. auto.
Qed.

Lemma falsy_some_false (o : option string) (v : string) :
  no_empty o -> o = Some v -> JsString.falsy o = false.
Proof.
  intros H ->. simpl. destruct v; simpl; auto. elim H; reflexivity.
Qed.

Lemma falsy_kept (o x : option string) :
  no_empty o -> JsString.falsy o = true -> kept o x.
Proof.
  intros H F. destruct o as [v|]; simpl; auto.
  rewrite (falsy_some_false (Some v) v H eq_refl) in F. discriminate.
Qed.

Lemma is_og_title_selected (n : node) :
  is_og_title n = true -> matches og_selector n = true.
Proof.
  unfold is_og_title, attr_is, og_selector, matches.
  destruct (has_tag "meta" n); simpl; [|discriminate].
  destruct (attr_of "property" n) as [x|]; simpl; [|discriminate].
  destruct (String.eqb_spec x "og:title"); simpl; [|discriminate].
  subst x. reflexivity.
Qed.

(** One OpenGraph tag sets the title exactly when it is an [og:title] tag
    with content. *)
Lemma og_step_title (p : LinkPreview) (el : node) :
  matches og_selector el = true ->
  title (og_step p el)
  = if is_og_title el then Some (content_of el) else title p.
Proof.
  unfold og_selector, matches, is_og_title, attr_is, has_content, content_of,
    og_step.
  destruct (has_tag "meta" el); simpl; [|discriminate].
  destruct (attr_of "property" el) as [x|]; simpl; [|discriminate].
  intros Hx.
  assert (Tx : JsString.truthy x = true) by (destruct x; auto; discriminate).
  rewrite Tx; simpl.
  destruct (attr_of "content" el) as [c|]; simpl.
  - destruct (JsString.truthy c); simpl.
    + destruct (String.eqb x "og:title"); simpl; auto.
      repeat (break_if; simpl; auto).
    + rewrite andb_false_r; reflexivity.
  - rewrite andb_false_r; reflexivity.
Qed.

Lemma scan_og_title (ns : list node) (p : LinkPreview) :
  title (List.fold_left og_step (List.filter (matches og_selector) ns) p)
  = match last_of (List.filter is_og_title ns) with
    | Some el => Some (content_of el)
    | None => title p
    end.
Proof.
  revert p; induction ns as [|n ns IH]; intros p; [reflexivity|].
  cbn [List.filter].
  destruct (matches og_selector n) eqn:Hm; cbn [List.fold_left].
  - rewrite IH, (og_step_title p n Hm).
    destruct (is_og_title n); auto.
    rewrite last_of_cons. destruct (last_of (filter is_og_title ns)); auto.
  - destruct (is_og_title n) eqn:Ho.
    + rewrite (is_og_title_selected n Ho) in Hm; discriminate.
    + apply IH.
Qed.

Lemma is_og_title_content (n : node) :
  is_og_title n = true -> content_of n <> EmptyString.
Proof.
  unfold is_og_title, has_content, content_of.
  destruct (attr_of "content" n) as [c|]; simpl.
  - rewrite !andb_true_iff. intros [_ H]. destruct c; simpl in *; congruence.
  - rewrite andb_false_r. discriminate.
Qed.

Lemma well_formed_initial (u : string) (r : Response) (doc : document) :
  well_formed (initial_preview u r doc).
Proof. repeat split; discriminate. Qed.

Lemma no_empty_truthy (c : string) :
  JsString.truthy c = true -> no_empty (Some c).
Proof. destruct c; [discriminate|]. intros _ H; discriminate. Qed.

Lemma og_step_well_formed (p : LinkPreview) (el : node) :
  well_formed p -> well_formed (og_step p el).
Proof.
  intros (Ht & Hd & Hi). unfold og_step.
  destruct (attr_of "property" el) as [x|]; [|repeat split; auto].
  destruct (attr_of "content" el) as [c|]; [|repeat split; auto].
  destruct (JsString.truthy c) eqn:Tc;
    [|rewrite orb_true_r; repeat split; auto].
  pose proof (no_empty_truthy c Tc).
  repeat (break_if; try (repeat split; simpl; auto; fail)).
Qed.

Lemma scan_og_well_formed (els : list node) (p : LinkPreview) :
  well_formed p -> well_formed (List.fold_left og_step els p).
Proof.
  revert p; induction els as [|el els IH]; intros p H; simpl; auto.
  apply IH, og_step_well_formed, H.
Qed.

(** What one Twitter tag may do to a well-formed preview: the fields other
    than [twitterCard] keep any value they hold. *)
Lemma twitter_step_keeps (p : LinkPreview) (el : node) :
  well_formed p ->
  well_formed (twitter_step p el)
  /\ kept (title p) (title (twitter_step p el))
  /\ kept (description p) (description (twitter_step p el))
  /\ kept (image p) (image (twitter_step p el))
  /\ siteName (twitter_step p el) = siteName p
  /\ type (twitter_step p el) = type p
  /\ urlCanonical (twitter_step p el) = urlCanonical p.
Proof.
  intros (Ht & Hd & Hi).
  assert (Same : well_formed p
                 /\ kept (title p) (title p)
                 /\ kept (description p) (description p)
                 /\ kept (image p) (image p)
                 /\ siteName p = siteName p /\ type p = type p
                 /\ urlCanonical p = urlCanonical p)
    by (repeat split; auto using kept_refl).
  unfold twitter_step.
  destruct (attr_of "name" el) as [x|]; [|exact Same].
  destruct (attr_of "content" el) as [c|]; [|exact Same].
  destruct (JsString.truthy c) eqn:Tc; [|rewrite orb_true_r; exact Same].
  pose proof (no_empty_truthy c Tc) as Hc.
  destruct (negb (JsString.truthy x) || negb true); [exact Same|].
  destruct (String.eqb x "twitter:card"); [exact Same|].
  destruct (String.eqb x "twitter:title" && JsString.falsy (title p)) eqn:E1.
  { apply andb_true_iff in E1 as [_ F].
    repeat split; simpl; auto using kept_refl, falsy_kept. }
  destruct (String.eqb x "twitter:description"
            && JsString.falsy (description p)) eqn:E2.
  { apply andb_true_iff in E2 as [_ F].
    repeat split; simpl; auto using kept_refl, falsy_kept. }
  destruct (String.eqb x "twitter:image" && JsString.falsy (image p)) eqn:E3.
  { apply andb_true_iff in E3 as [_ F].
    repeat split; simpl; auto using kept_refl, falsy_kept. }
  exact Same.
Qed.

Lemma scan_twitter_keeps (els : list node) (p : LinkPreview) :
  well_formed p ->
  let q := List.fold_left twitter_step els p in
  well_formed q
  /\ kept (title p) (title q)
  /\ kept (description p) (description q)
  /\ kept (image p) (image q)
  /\ siteName q = siteName p
  /\ type q = type p
  /\ urlCanonical q = urlCanonical p.
Proof.
  revert p; induction els as [|el els IH]; intros p H; simpl.
  - repeat split; auto using kept_refl; apply H.
  - destruct (twitter_step_keeps p el H) as (W & T & D & I & S & Y & U).
    destruct (IH _ W) as (W' & T' & D' & I' & S' & Y' & U').
    repeat split; try apply W'; eauto using kept_trans; congruence.
Qed.

Lemma fallback_title_keeps (doc : document) (p : LinkPreview) :
  well_formed p ->
  let q := fallback_title doc p in
  well_formed q
  /\ kept (title p) (title q)
  /\ description q = description p /\ image q = image p
  /\ siteName q = siteName p /\ type q = type p
  /\ urlCanonical q = urlCanonical p /\ twitterCard q = twitterCard p.
Proof.
  intros (Ht & Hd & Hi). unfold fallback_title.
  destruct (JsString.falsy (title p)) eqn:F; simpl.
  - repeat split; auto using falsy_kept.
    unfold no_empty, JsString.or_undefined.
    destruct (JsString.trim _); simpl; discriminate.
  - repeat split; auto using kept_refl.
Qed.

Lemma first_content_truthy (els : list node) (c : string) :
  first_content els = Some c -> JsString.truthy c = true.
Proof.
  induction els as [|el els IH]; simpl; [discriminate|].
  destruct (attr_of "content" el) as [x|]; auto.
  destruct (JsString.truthy x) eqn:T; auto.
  intros E; congruence.
Qed.

Lemma fallback_description_keeps (doc : document) (p : LinkPreview) :
  well_formed p ->
  let q := fallback_description doc p in
  well_formed q
  /\ title q = title p
  /\ kept (description p) (description q)
  /\ image q = image p
  /\ siteName q = siteName p /\ type q = type p
  /\ urlCanonical q = urlCanonical p /\ twitterCard q = twitterCard p.
Proof.
  intros (Ht & Hd & Hi). unfold fallback_description.
  destruct (JsString.falsy (description p)) eqn:F; simpl.
  - destruct (first_content _) as [c|] eqn:E; simpl.
    + repeat split; auto using falsy_kept.
      apply no_empty_truthy, (first_content_truthy _ _ E).
    + repeat split; auto using kept_refl.
  - repeat split; auto using kept_refl.
Qed.

End ScanFacts.

Section TitleFacts.

Lemma is_twitter_title_spec (el : node) (x c : string) :
  has_tag "meta" el = true ->
  attr_of "name" el = Some x ->
  attr_of "content" el = Some c ->
  JsString.truthy c = true ->
  is_twitter_title el = String.eqb x "twitter:title".
Proof.
  intros Hm Hx Hc Tc.
  unfold is_twitter_title, attr_is, has_content.
  rewrite Hm, Hx, Hc; simpl. rewrite Tc; simpl.
  apply andb_true_r.
Qed.

(** A selected Twitter tag that is not a [twitter:title] tag with content
    leaves the title alone. *)
Lemma twitter_step_title_other (p : LinkPreview) (el : node) :
  matches twitter_selector el = true ->
  is_twitter_title el = false ->
  title (twitter_step p el) = title p.
Proof.
  unfold twitter_selector, matches. intros Hm Hn.
  apply andb_true_iff in Hm as [Hm _].
  unfold twitter_step.
  destruct (attr_of "name" el) as [x|] eqn:Hx; auto.
  destruct (attr_of "content" el) as [c|] eqn:Hc; auto.
  destruct (JsString.truthy c) eqn:Tc; [|rewrite orb_true_r; reflexivity].
  rewrite (is_twitter_title_spec el x c Hm Hx Hc Tc) in Hn.
  rewrite Hn; simpl.
  repeat (break_if; simpl; auto).
Qed.

Lemma scan_twitter_title_none (ns : list node) (p : LinkPreview) :
  List.filter is_twitter_title ns = [] ->
  title (List.fold_left twitter_step
           (List.filter (matches twitter_selector) ns) p)
  = title p.
Proof.
  revert p; induction ns as [|n ns IH]; intros p; [reflexivity|].
  cbn [List.filter].
  destruct (is_twitter_title n) eqn:Hn; [discriminate|]. intros E.
  destruct (matches twitter_selector n) eqn:Hm; cbn [List.fold_left].
  - rewrite (IH _ E). apply twitter_step_title_other; assumption.
  - apply IH, E.
Qed.

Lemma text_all_space (els : list node) :
  List.Forall (fun el => all_space (textContent el) = true) els ->
  JsString.trim (text els) = EmptyString.
Proof.
  intros H. apply trim_empty. unfold text. apply all_space_concat.
  induction H; simpl; constructor; auto.
Qed.

(** No scan leaves an empty string in the title. *)
Lemma extract_preview_well_formed (u : string) (r : Response)
  (doc : document) :
  well_formed (extract_preview u r doc).
Proof.
  unfold extract_preview.
  apply fallback_description_keeps, fallback_title_keeps.
  unfold scan_twitter. apply scan_twitter_keeps.
  unfold scan_og. apply scan_og_well_formed, well_formed_initial.
Qed.

End TitleFacts.

(* ===================================================================== *)
(** ** Facts about the removal of boilerplate *)
(* ===================================================================== *)

Section RemovalFacts.

Variable boilerplate : list string.
Hypothesis script_listed : List.In "script" boilerplate.

Lemma node_induction (P : node -> Prop) :
  (forall d, P (Text d)) ->
  (forall d, P (Comment d)) ->
  (forall t a cs, List.Forall P cs -> P (Element t a cs)) ->
  forall n, P n.
Proof.
  intros Ht Hc He. fix IH 1. intros [d|d|t a cs].
  - apply Ht.
  - apply Hc.
  - apply He. induction cs as [|c cs IHcs]; constructor.
    + apply IH.
    + exact IHcs.
Qed.

Lemma script_is_boilerplate (a : list (string * string)) (cs : list node) :
  is_any_tag boilerplate (Element "script" a cs) = true.
Proof.
  unfold is_any_tag. apply existsb_exists.
  exists "script". split; [exact script_listed|reflexivity].
Qed.

Lemma kept_is_not_script (n : node) :
  is_any_tag boilerplate n = false -> has_tag "script" n = false.
Proof.
  unfold is_any_tag. intros H.
  destruct (has_tag "script" n) eqn:E; auto.
  rewrite <- H. symmetry. apply existsb_exists.
  exists "script". split; [exact script_listed|exact E].
Qed.

Lemma remove_node_variant (n n' : node) :
  script_variant n n' ->
  remove_node boilerplate n = remove_node boilerplate n'.
Proof.
  revert n n'. fix IH 3. intros n n' H.
  destruct H as [d|d|a cs a' cs'|t a cs cs' HF].
  - reflexivity.
  - reflexivity.
  - cbn [remove_node]. rewrite !script_is_boilerplate. reflexivity.
  - cbn [remove_node].
    change (is_any_tag boilerplate (Element t a cs'))
      with (is_any_tag boilerplate (Element t a cs)).
    destruct (is_any_tag boilerplate (Element t a cs)); [reflexivity|].
    do 2 f_equal.
    induction HF as [|x y xs ys Hxy HF IHF]; [reflexivity|].
    cbn [List.flat_map]. rewrite (IH x y Hxy), IHF. reflexivity.
Qed.

Lemma remove_variant (doc doc' : document) :
  List.Forall2 script_variant doc doc' ->
  remove boilerplate doc = remove boilerplate doc'.
Proof.
  unfold remove. induction 1 as [|x y xs ys Hxy HF IHF]; [reflexivity|].
  cbn [List.flat_map]. rewrite (remove_node_variant x y Hxy), IHF.
  reflexivity.
Qed.

Lemma remove_node_no_script (n : node) :
  List.Forall (fun m => has_tag "script" m = false)
    (List.flat_map subtree (remove_node boilerplate n)).
Proof.
  induction n as [d|d|t a cs IH] using node_induction.
  - repeat constructor.
  - repeat constructor.
  - cbn [remove_node].
    destruct (is_any_tag boilerplate (Element t a cs)) eqn:E.
    + constructor.
    + cbn [List.flat_map subtree]. rewrite List.app_nil_r.
      constructor.
      * apply kept_is_not_script in E. exact E.
      * clear E. induction IH as [|c cs Hc Hcs IHcs]; [constructor|].
        cbn [List.flat_map]. rewrite List.flat_map_app.
        apply List.Forall_app. split; [exact Hc|exact IHcs].
Qed.

Lemma remove_no_script (doc : document) :
  List.Forall (fun m => has_tag "script" m = false)
    (all_nodes (remove boilerplate doc)).
Proof.
  unfold all_nodes, remove.
  induction doc as [|n doc IH]; [constructor|].
  cbn [List.flat_map]. rewrite List.flat_map_app.
  apply List.Forall_app. split; [apply remove_node_no_script|exact IH].
Qed.

End RemovalFacts.

(* ===================================================================== *)
(** ** Facts about running the asynchronous code *)
(* ===================================================================== *)

Section RunFacts.

Variable env : Env.

Lemma getFavicon_returns (u : string) (log : list Request) :
  exists v log', getFavicon u env log = (inr v, log').
Proof.
  unfold getFavicon, try_catch, bind, new_URL_origin, fetchWithTimeout, ret.
  destruct (URL_origin env u) as [o|]; [|eauto].
  destruct (fetch env log _) as [e|r]; [eauto|].
  destruct (ok r); eauto.
Qed.

Lemma getFavicon_absent (u : string) (log : list Request) :
  probe_fails env log u ->
  exists log', getFavicon u env log = (inr None, log').
Proof.
  unfold probe_fails, getFavicon, try_catch, bind, new_URL_origin,
    fetchWithTimeout, ret.
  destruct (URL_origin env u) as [o|]; [|eauto].
  destruct (fetch env log _) as [e|r]; [eauto|].
  intros ->. eauto.
Qed.

Lemma fetchLinkPreview_returns (u : string) (log : list Request)
  (r : Response) (html : string) :
  fetch env log (mkRequest u 15000) = inr r ->
  body r = inr html ->
  exists icon log',
    getFavicon u env (log ++ [mkRequest u 15000]) = (inr icon, log')
    /\ fetchLinkPreview u env log
       = (inr (set_favicon (extract_preview u r (cheerio_load env html)) icon),
          log').
Proof.
  intros Hf Hb.
  destruct (getFavicon_returns u (log ++ [mkRequest u 15000]))
    as (icon & log' & Hi).
  exists icon, log'. split; [exact Hi|].
  unfold fetchLinkPreview, bind, fetchWithTimeout, settle, ask, ret.
  rewrite Hf, Hb. cbn [ret]. unfold ret. rewrite Hi. reflexivity.
Qed.

Lemma getFavicon_log (u : string) (log : list Request) :
  exists rest, snd (getFavicon u env log) = log ++ rest.
Proof.
  unfold getFavicon, try_catch, bind, new_URL_origin, fetchWithTimeout, ret.
  destruct (URL_origin env u) as [o|];
    [|exists []; cbn [snd]; rewrite List.app_nil_r; reflexivity].
  destruct (fetch env log _) as [e|r]; [|destruct (ok r)];
    eexists; reflexivity.
Qed.

(** The first request of [fetchLinkPreview] is the page itself. *)
Lemma fetchLinkPreview_log (u : string) (log : list Request) :
  exists rest,
    snd (fetchLinkPreview u env log) = log ++ mkRequest u 15000 :: rest.
Proof.
  unfold fetchLinkPreview, bind, fetchWithTimeout.
  destruct (fetch env log _) as [e|r]; [exists []; reflexivity|].
  unfold settle. destruct (body r) as [e|html]; [exists []; reflexivity|].
  unfold ret at 1, ask.
  destruct (getFavicon_log u (log ++ [mkRequest u 15000])) as (rest & Hl).
  destruct (getFavicon u env (log ++ [mkRequest u 15000])) as [[e|v] l];
    cbn [snd] in Hl; subst l; exists rest;
    unfold ret; cbn [snd]; rewrite <- List.app_assoc; reflexivity.
Qed.

Lemma fetch_link_preview_returns (u : string) (r : Response)
  (html : string) :
  u <> EmptyString ->
  fetch env [] (mkRequest u 15000) = inr r ->
  body r = inr html ->
  exists icon log',
    getFavicon u env [mkRequest u 15000] = (inr icon, log')
    /\ fetch_link_preview_branch (url_args u) env []
       = (inr (mkResult
                 (Stringified
                    (preview_json
                       (set_favicon
                          (extract_preview u r (cheerio_load env html))
                          icon)))
                 false),
          log').
Proof.
  intros Hu Hf Hb.
  destruct (fetchLinkPreview_returns u [] r html Hf Hb)
    as (icon & log' & Hi & Hp).
  exists icon, log'. split; [exact Hi|].
  unfold fetch_link_preview_branch, url_args, String_. cbn [arg_url].
  destruct u as [|c u]; [congruence|]. cbn [JsString.truthy negb].
  unfold bind. rewrite Hp. reflexivity.
Qed.

Lemma get_page_content_returns (boilerplate : list string) (a : Arguments_)
  (r : Response) (html : string) :
  fetch env [] (mkRequest (String_ (arg_url a)) 15000) = inr r ->
  body r = inr html ->
  get_page_content_branch boilerplate a env []
  = (inr (mkResult
            (Plain (extract_content boilerplate (cheerio_load env html)
                      (effective_maxLength a)))
            false),
     [mkRequest (String_ (arg_url a)) 15000]).
Proof.
  intros Hf Hb.
  unfold get_page_content_branch, bind, fetchWithTimeout, settle, ask, ret.
  rewrite Hf, Hb. reflexivity.
Qed.

Lemma searchWeb_returns (q : string) (r : Response) (html : string) :
  let rq :=
    mkRequest ("https://duckduckgo.com/html/?q=" ++ encodeURIComponent env q
                 ++ "&kl=us-en")%string 10000 in
  fetch env [] rq = inr r ->
  body r = inr html ->
  searchWeb q env []
  = (inr (array_slice0 (extract_results (cheerio_load env html)) (of_Z 10)),
     [rq]).
Proof.
  intros rq Hf Hb.
  unfold searchWeb, bind, fetchWithTimeout, settle, ask, ret.
  fold rq. rewrite Hf, Hb. reflexivity.
Qed.

Lemma searchWeb_length (q : string) (log : list Request)
  (out : list SearchResult) (log' : list Request) :
  searchWeb q env log = (inr out, log') -> (List.length out <= 10)%nat.
Proof.
  unfold searchWeb, bind, fetchWithTimeout, settle, ask, ret, throw.
  destruct (fetch env log _) as [e|r]; [discriminate|].
  destruct (body r) as [e|html]; [discriminate|].
  intros E. injection E as <- _.
  rewrite array_slice0_length.
  change (of_Z 10) with (of_Z (Z.of_nat 10)).
  rewrite slice_to_integer. lia.
Qed.

End RunFacts.

Section JsonFacts.

Lemma lookup_member_skip (k k' : string) (v : option string)
  (rest : list (string * json)) :
  String.eqb k k' = false ->
  json_lookup k (member k' v ++ rest) = json_lookup k rest.
Proof.
  intros H. destruct v as [s|]; simpl; [rewrite H|]; reflexivity.
Qed.

Lemma title_member (p : LinkPreview) :
  title p = None -> json_member "title" (preview_json p) = None.
Proof.
  intros H. unfold preview_json, json_member. rewrite H.
  cbn [List.app json_lookup]. change (String.eqb "title" "url") with false.
  cbv iota.
  repeat (rewrite lookup_member_skip by reflexivity).
  cbn [member List.app].
  repeat (rewrite lookup_member_skip by reflexivity).
  destruct (favicon p); reflexivity.
Qed.

Lemma favicon_member (p : LinkPreview) :
  favicon p = None -> json_member "favicon" (preview_json p) = None.
Proof.
  intros H. unfold preview_json, json_member. rewrite H.
  cbn [List.app json_lookup]. change (String.eqb "favicon" "url") with false.
  cbv iota.
  repeat (rewrite lookup_member_skip by reflexivity).
  reflexivity.
Qed.

End JsonFacts.

Section PrefixFacts.

(** From a well-formed preview on, the rest of the Twitter scan and the two
    fallbacks change nothing that is set. *)
Lemma kept_to_the_end (doc : document) (els : list node) (p : LinkPreview) :
  well_formed p ->
  let scanned := List.fold_left twitter_step els p in
  let final := fallback_description doc (fallback_title doc scanned) in
  kept (title p) (title final)
  /\ kept (description p) (description final)
  /\ kept (image p) (image final)
  /\ siteName final = siteName p
  /\ type final = type p
  /\ urlCanonical final = urlCanonical p
  /\ twitterCard final = twitterCard scanned.
Proof.
  intros Wp scanned final.
  destruct (scan_twitter_keeps els p Wp)
    as (Wt & Tt & Dt & It & St & Yt & Ut).
  fold scanned in Wt, Tt, Dt, It, St, Yt, Ut.
  destruct (fallback_title_keeps doc _ Wt)
    as (Wf & Tf & Df & If & Sf & Yf & Uf & Cf).
  destruct (fallback_description_keeps doc _ Wf)
    as (Wd & Td & Dd & Id & Sd & Yd & Ud & Cd).
  unfold final. repeat split.
  - eapply kept_trans; [exact Tt|]. rewrite Td. exact Tf.
  - eapply kept_trans; [exact Dt|]. rewrite <- Df. exact Dd.
  - eapply kept_trans; [exact It|]. apply kept_eq. congruence.
  - congruence.
  - congruence.
  - congruence.
  - congruence.
Qed.

Lemma after_og_well_formed (u : string) (r : Response) (doc : document) :
  well_formed (after_og u r doc).
Proof. apply scan_og_well_formed, well_formed_initial. Qed.

End PrefixFacts.

(* ===================================================================== *)
(** ** Precedence of the metadata sources *)
(* ===================================================================== *)

(** C1, as stated, fails: a value set by an earlier-scanned tag can be
    changed by a later-scanned one.  In a document with two [og:title] tags
    the title is "First" after the first tag and "Second" in the result. *)
Lemma later_og_title_replaces_earlier :
  ~ (forall (u : string) (r : Response) (doc : document) (k : nat),
        kept (title (og_prefix k u r doc))
             (title (extract_preview u r doc))).
Proof.
  intros H.
  specialize (H "http://a" (mkResponse true None (inr EmptyString)) doc_two_og_titles
                1%nat).
  vm_compute in H. discriminate H.
Qed.

(** C1, amended: once the OpenGraph scan is over, a field that holds a value
    is never changed by what is scanned later.  At every point of the Twitter
    scan that follows, the title, description, image, site name, type and
    canonical URL that are set keep their value up to the result, and a
    Twitter card set by the Twitter scan is kept by the fallbacks. *)
Theorem fields_kept_after_og_scan (u : string) (r : Response)
  (doc : document) (k : nat) :
  let p := twitter_prefix k u r doc in
  let final := extract_preview u r doc in
  kept (title p) (title final)
  /\ kept (description p) (description final)
  /\ kept (image p) (image final)
  /\ kept (siteName p) (siteName final)
  /\ kept (type p) (type final)
  /\ kept (urlCanonical p) (urlCanonical final)
  /\ kept (twitterCard (scan_twitter doc (after_og u r doc)))
          (twitterCard final).
Proof.
  intros p final.
  assert (Wp : well_formed p).
  { apply (scan_twitter_keeps (List.firstn k (select twitter_selector doc))),
      after_og_well_formed. }
  assert (E : List.fold_left twitter_step
                (List.skipn k (select twitter_selector doc)) p
              = scan_twitter doc (after_og u r doc)).
  { unfold scan_twitter, p, twitter_prefix.
    rewrite <- List.fold_left_app, List.firstn_skipn. reflexivity. }
  pose proof (kept_to_the_end doc
                (List.skipn k (select twitter_selector doc)) p Wp) as K.
  cbv zeta in K. rewrite E in K.
  change (fallback_description doc
            (fallback_title doc (scan_twitter doc (after_og u r doc))))
    with final in K.
  destruct K as (T & D & I & S & Y & U & C).
  repeat split; auto using kept_eq.
Qed.

(** The amended C1 on a page where both vocabularies give a title. *)
Example fields_kept_example :
  title (twitter_prefix 0 "http://a" (mkResponse true None (inr EmptyString))
           doc_both_titles) = Some "From OpenGraph"
  /\ title (extract_preview "http://a" (mkResponse true None (inr EmptyString))
              doc_both_titles) = Some "From OpenGraph".
Proof. split; reflexivity. Qed.

(** C4: when the document has an [og:title] tag and a [twitter:title] tag,
    both with non-empty content, [fetchLinkPreview] returns a preview whose
    title is the content of an [og:title] tag (the last one in document
    order), and so never the content of a [twitter:title] tag that differs
    from it. *)
Theorem og_title_wins (env : Env) (log : list Request) (u : string)
  (r : Response) (html : string) :
  fetch env log (mkRequest u 15000) = inr r ->
  body r = inr html ->
  og_title_tags (cheerio_load env html) <> [] ->
  twitter_title_tags (cheerio_load env html) <> [] ->
  exists el p log',
    last_of (og_title_tags (cheerio_load env html)) = Some el
    /\ List.In el (og_title_tags (cheerio_load env html))
    /\ fetchLinkPreview u env log = (inr p, log')
    /\ title p = attr_of "content" el
    /\ forall tw, List.In tw (twitter_title_tags (cheerio_load env html)) ->
                  attr_of "content" tw <> attr_of "content" el ->
                  title p <> attr_of "content" tw.
Proof.
  intros Hf Hb Hog _.
  set (doc := cheerio_load env html) in *.
  destruct (last_of_nonempty _ Hog) as (el & Hl).
  pose proof (last_of_In _ _ Hl) as Hin.
  destruct (fetchLinkPreview_returns env u log r html Hf Hb)
    as (icon & log' & _ & Hp).
  fold doc in Hp.
  assert (Ho : is_og_title el = true).
  { unfold og_title_tags in Hin. apply List.filter_In in Hin. apply Hin. }
  assert (Hc : attr_of "content" el = Some (content_of el)).
  { unfold is_og_title, has_content in Ho. unfold content_of.
    destruct (attr_of "content" el); [reflexivity|].
    rewrite andb_false_r in Ho. discriminate. }
  assert (Ht : title (extract_preview u r doc) = Some (content_of el)).
  { pose proof (kept_to_the_end doc (select twitter_selector doc)
                  (after_og u r doc) (after_og_well_formed u r doc))
      as (K & _).
    change (kept (title (after_og u r doc))
                 (title (extract_preview u r doc))) in K.
    assert (T : title (after_og u r doc) = Some (content_of el)).
    { unfold after_og, scan_og, select. rewrite scan_og_title.
      fold (og_title_tags doc). rewrite Hl. reflexivity. }
    rewrite T in K. exact K. }
  exists el, (set_favicon (extract_preview u r doc) icon), log'.
  repeat split; auto.
  - cbn [set_favicon title]. congruence.
  - cbn [set_favicon title]. intros tw _ Hne E. apply Hne. congruence.
Qed.

Lemma og_title_wins_witness :
  exists el p log',
    last_of (og_title_tags doc_both_titles) = Some el
    /\ List.In el (og_title_tags doc_both_titles)
    /\ fetchLinkPreview "http://a" (serving true doc_both_titles) []
       = (inr p, log')
    /\ title p = attr_of "content" el
    /\ forall tw, List.In tw (twitter_title_tags doc_both_titles) ->
                  attr_of "content" tw <> attr_of "content" el ->
                  title p <> attr_of "content" tw.
Proof.
  apply (og_title_wins (serving true doc_both_titles) [] "http://a"
           (mkResponse true (Some "text/html") (inr "<html>")) "<html>").
  - reflexivity.
  - reflexivity.
  - vm_compute. discriminate.
  - vm_compute. discriminate.
Defined.

(** C6: when the document has no [og:title] and no [twitter:title] tag with
    content, and every [title] element (if any) holds white space only, the
    [fetch_link_preview] tool succeeds and the JSON object it prints has no
    [title] member at all. *)
Theorem missing_title_is_omitted (env : Env) (u : string) (r : Response)
  (html : string) :
  u <> EmptyString ->
  fetch env [] (mkRequest u 15000) = inr r ->
  body r = inr html ->
  og_title_tags (cheerio_load env html) = [] ->
  twitter_title_tags (cheerio_load env html) = [] ->
  List.Forall (fun el => all_space (textContent el) = true)
    (select (ByTag "title") (cheerio_load env html)) ->
  forall call, call = call_tool_ts \/ call = call_tool_js ->
  exists j log',
    run (call "fetch_link_preview" (url_args u)) env
    = (inr (mkResult (Stringified j) false), log')
    /\ json_member "title" j = None
    /\ json_member "title" j <> Some (JString EmptyString).
Proof.
  intros Hu Hf Hb Hog Htw Hti call Hcall.
  destruct (fetch_link_preview_returns env u r html Hu Hf Hb)
    as (icon & log' & _ & Hp).
  set (doc := cheerio_load env html) in *.
  assert (Ht : title (extract_preview u r doc) = None).
  { unfold extract_preview.
    destruct (fallback_description_keeps doc
                (fallback_title doc
                   (scan_twitter doc (scan_og doc (initial_preview u r doc)))))
      as (_ & T & _).
    { apply fallback_title_keeps. unfold scan_twitter.
      apply scan_twitter_keeps. unfold scan_og.
      apply scan_og_well_formed, well_formed_initial. }
    rewrite T. unfold fallback_title.
    assert (T0 : title (scan_twitter doc
                          (scan_og doc (initial_preview u r doc))) = None).
    { unfold scan_twitter, select. rewrite scan_twitter_title_none by exact Htw.
      unfold scan_og, select. rewrite scan_og_title.
      fold (og_title_tags doc). rewrite Hog. reflexivity. }
    rewrite T0. cbn [JsString.falsy set_title title].
    rewrite (text_all_space _ Hti). reflexivity. }
  eexists _, log'.
  assert (R : run (call "fetch_link_preview" (url_args u)) env
              = fetch_link_preview_branch (url_args u) env []).
  { destruct Hcall as [-> | ->];
      unfold run, call_tool_ts, call_tool_js, try_catch;
      cbn [String.eqb Ascii.eqb Bool.eqb]; rewrite Hp; reflexivity. }
  rewrite R, Hp.
  split; [reflexivity|].
  rewrite title_member by (cbn [set_favicon title]; exact Ht).
  split; [reflexivity|discriminate].
Qed.

Lemma missing_title_is_omitted_witness :
  exists j log',
    run (call_tool_ts "fetch_link_preview" (url_args "http://a"))
      (serving true doc_untitled)
    = (inr (mkResult (Stringified j) false), log')
    /\ json_member "title" j = None
    /\ json_member "title" j <> Some (JString EmptyString).
Proof.
  apply (missing_title_is_omitted (serving true doc_untitled) "http://a"
           (mkResponse true (Some "text/html") (inr "<html>")) "<html>").
  - discriminate.
  - reflexivity.
  - reflexivity.
  - reflexivity.
  - reflexivity.
  - vm_compute. repeat constructor.
  - left. reflexivity.
Defined.

(* ===================================================================== *)
(** ** The favicon probe and the URL guard *)
(* ===================================================================== *)

Lemma call_fetch_link_preview (call : string -> Arguments_ -> M CallToolResult)
  (a : Arguments_) (env : Env) :
  call = call_tool_ts \/ call = call_tool_js ->
  run (call "fetch_link_preview" a) env
  = try_catch (fetch_link_preview_branch a) on_error env [].
Proof. intros [-> | ->]; reflexivity. Qed.

Lemma call_get_page_content_ts (a : Arguments_) (env : Env) :
  run (call_tool_ts "get_page_content" a) env
  = try_catch (get_page_content_branch boilerplate_ts a) on_error env [].
Proof. reflexivity. Qed.

Lemma call_get_page_content_js (a : Arguments_) (env : Env) :
  run (call_tool_js "get_page_content" a) env
  = try_catch (get_page_content_branch boilerplate_js a) on_error env [].
Proof. reflexivity. Qed.

(** C5: [getFavicon] never throws.  Whatever the URL and the network do, it
    returns; it returns [undefined] when the URL is malformed, the request
    is rejected or the status is not a success; and in that case a
    [fetch_link_preview] call whose page request succeeded still succeeds,
    with no [favicon] member in the object it prints. *)
Theorem favicon_probe_never_throws (env : Env) (u : string) :
  (forall log, exists v log', getFavicon u env log = (inr v, log'))
  /\ (forall log, probe_fails env log u ->
                  exists log', getFavicon u env log = (inr None, log'))
  /\ (forall r html call,
         u <> EmptyString ->
         fetch env [] (mkRequest u 15000) = inr r ->
         body r = inr html ->
         probe_fails env [mkRequest u 15000] u ->
         call = call_tool_ts \/ call = call_tool_js ->
         exists j log',
           run (call "fetch_link_preview" (url_args u)) env
           = (inr (mkResult (Stringified j) false), log')
           /\ json_member "favicon" j = None).
Proof.
  split; [|split].
  - intros log. apply getFavicon_returns.
  - intros log. apply getFavicon_absent.
  - intros r html call Hu Hf Hb Hp Hcall.
    destruct (fetch_link_preview_returns env u r html Hu Hf Hb)
      as (icon & log' & Hi & Hr).
    destruct (getFavicon_absent env u _ Hp) as (log'' & Hn).
    rewrite Hn in Hi. injection Hi as <- <-.
    eexists _, log''.
    rewrite (call_fetch_link_preview call _ env Hcall).
    unfold try_catch. rewrite Hr.
    split; [reflexivity|].
    apply favicon_member. reflexivity.
Qed.

Lemma favicon_probe_never_throws_witness :
  exists j log',
    run (call_tool_ts "fetch_link_preview" (url_args "http://a/b"))
      (serving_without_icon doc_both_titles)
    = (inr (mkResult (Stringified j) false), log')
    /\ json_member "favicon" j = None.
Proof.
  apply (proj2 (proj2 (favicon_probe_never_throws
                         (serving_without_icon doc_both_titles)
                         "http://a/b"))
           (mkResponse true (Some "text/html") (inr "<html>")) "<html>").
  - discriminate.
  - reflexivity.
  - reflexivity.
  - vm_compute. reflexivity.
  - left. reflexivity.
Defined.

(** The guard of [fetch_link_preview] at work: an empty [url] is refused
    with "URL is required", and no request is issued. *)
Lemma empty_url_is_refused (env : Env)
  (call : string -> Arguments_ -> M CallToolResult) :
  call = call_tool_ts \/ call = call_tool_js ->
  run (call "fetch_link_preview" (url_args EmptyString)) env
  = (inr (mkResult (Stringified (error_json "URL is required")) true), []).
Proof.
  intros H. rewrite (call_fetch_link_preview call _ env H). reflexivity.
Qed.

(** A call without [url] asks the network for the page "undefined". *)
Lemma missing_url_is_requested (env : Env)
  (call : string -> Arguments_ -> M CallToolResult) :
  call = call_tool_ts \/ call = call_tool_js ->
  exists out rest,
    run (call "fetch_link_preview" no_args) env
    = (out, mkRequest "undefined" 15000 :: rest)
    /\ (forall e, fetch env [] (mkRequest "undefined" 15000) = inl e ->
                  out = inr (mkResult
                               (Stringified (error_json (message_of e)))
                               true)).
Proof.
  intros H. rewrite (call_fetch_link_preview call _ env H).
  destruct (fetch env [] (mkRequest "undefined" 15000)) as [e|r] eqn:Hf.
  - exists (inr (mkResult (Stringified (error_json (message_of e))) true)), [].
    split.
    + unfold try_catch, fetch_link_preview_branch, no_args, String_.
      cbn [arg_url JsString.truthy negb].
      unfold bind, fetchLinkPreview, bind, fetchWithTimeout.
      rewrite Hf. reflexivity.
    + intros e' E. injection E as <-. reflexivity.
  - destruct (fetchLinkPreview_log env "undefined" []) as (rest & Hl).
    unfold try_catch, fetch_link_preview_branch, no_args, String_.
    cbn [arg_url JsString.truthy negb]. unfold bind.
    destruct (fetchLinkPreview "undefined" env []) as [[e|p] l];
      cbn [snd List.app] in Hl; subst l.
    + eexists _, rest. split; [reflexivity|]. intros e' E; discriminate.
    + eexists _, rest. split; [reflexivity|]. intros e' E; discriminate.
Qed.

(** C3 at a missing [url]: [String(undefined)] is the non-empty string
    "undefined", the guard lets it through, and the first thing the call does
    is to request the page "undefined" from the network.  Whatever the call
    returns then comes from that request, not from the guard. *)
Theorem missing_url_reaches_fetch (env : Env) :
  (exists out rest,
      run (call_tool_ts "fetch_link_preview" no_args) env
      = (out, mkRequest "undefined" 15000 :: rest))
  /\ (exists out rest,
         run (call_tool_js "fetch_link_preview" no_args) env
         = (out, mkRequest "undefined" 15000 :: rest))
  /\ run (call_tool_ts "fetch_link_preview" (url_args EmptyString)) env
     = (inr (mkResult (Stringified (error_json "URL is required")) true), []).
Proof.
  split; [|split].
  - destruct (missing_url_is_requested env call_tool_ts (or_introl eq_refl))
      as (out & rest & H & _). eauto.
  - destruct (missing_url_is_requested env call_tool_js (or_intror eq_refl))
      as (out & rest & H & _). eauto.
  - reflexivity.
Qed.

(** With a network that answers every request, the call with a missing
    [url] even succeeds: it returns the preview of the page "undefined"
    without the error flag. *)
Example missing_url_can_succeed :
  run (call_tool_ts "fetch_link_preview" no_args) (serving true doc_untitled)
  = (inr (mkResult
            (Stringified
               (JObject [("url", JString "undefined");
                         ("contentType", JString "text/html");
                         ("language", JString "en");
                         ("favicon", JString "undefined/favicon.ico")]))
            false),
     [mkRequest "undefined" 15000;
      mkRequest "undefined/favicon.ico" 3000]).
Proof. reflexivity. Qed.

(* ===================================================================== *)
(** ** The length limit of get_page_content *)
(* ===================================================================== *)

(** A non-negative [maxLength] does not bound the text of every call: the
    bound fails at zero. *)
Lemma zero_maxLength_is_not_a_bound :
  ~ (forall (env : Env) (u : string) (L : number) (res : CallToolResult)
            (log : list Request) (s : string),
        nonneg L ->
        run (call_tool_ts "get_page_content" (content_args u L)) env
        = (inr res, log) ->
        plain_text res = Some s ->
        length_le (String.length s) L).
Proof.
  intros H.
  pose proof (H (serving true doc_script_echo) "http://a" (Finite 0) _ _ "hi"
                (Qle_refl 0) eq_refl eq_refl) as Hle.
  vm_compute in Hle. apply Hle. reflexivity.
Qed.

(** C2 at [maxLength = 0]: [Number(0) || 5000] is 5000, so the limit asked
    for is dropped.  On the page of [doc_script_echo] both builds return the
    two characters "hi", which is more than the 0 characters allowed. *)
Theorem zero_maxLength_returns_text :
  run (call_tool_ts "get_page_content" (content_args "http://a" (Finite 0)))
    (serving true doc_script_echo)
  = (inr (mkResult (Plain "hi") false), [mkRequest "http://a" 15000])
  /\ run (call_tool_js "get_page_content"
            (content_args "http://a" (Finite 0)))
       (serving true doc_script_echo)
     = (inr (mkResult (Plain "hi") false), [mkRequest "http://a" 15000])
  /\ effective_maxLength (content_args "http://a" (Finite 0)) = of_Z 5000
  /\ ~ length_le (String.length "hi") (Finite 0).
Proof.
  split; [reflexivity|]. split; [reflexivity|]. split; [reflexivity|].
  intros H. vm_compute in H. apply H. reflexivity.
Qed.

(** Away from zero the limit is kept: for every [maxLength] value [L] with
    [L >= 0] and [L] not zero, a text returned by [get_page_content] has
    length at most [L]. *)
Lemma positive_maxLength_bounds_text (env : Env) (a : Arguments_)
  (L : number) (call : string -> Arguments_ -> M CallToolResult)
  (res : CallToolResult) (log : list Request) (s : string) :
  arg_maxLength a = Some L ->
  nonneg L ->
  truthy L = true ->
  call = call_tool_ts \/ call = call_tool_js ->
  run (call "get_page_content" a) env = (inr res, log) ->
  plain_text res = Some s ->
  length_le (String.length s) L.
Proof.
  intros Ha Hn Ht Hc.
  assert (E : effective_maxLength a = L).
  { unfold effective_maxLength. rewrite Ha. cbn [Number].
    apply truthy_number_kept, Ht. }
  assert (R : exists boilerplate,
             run (call "get_page_content" a) env
             = try_catch (get_page_content_branch boilerplate a) on_error
                 env [])
    by (destruct Hc as [-> | ->]; eexists; reflexivity).
  destruct R as (boilerplate & ->).
  unfold try_catch, get_page_content_branch, bind, fetchWithTimeout, settle,
    ask, ret, throw, on_error.
  destruct (fetch env [] _) as [e|r].
  { intros Hr Hs. injection Hr as <- _. discriminate Hs. }
  destruct (body r) as [e|html].
  { intros Hr Hs. injection Hr as <- _. discriminate Hs. }
  intros Hr Hs. injection Hr as <- _. injection Hs as <-.
  unfold extract_content. rewrite string_slice0_length, E.
  apply slice_to_bound, Hn.
Qed.

(** With [maxLength = 3/2] the text is cut after one character. *)
Example content_cut_at_fraction :
  run (call_tool_ts "get_page_content"
         (content_args "http://a" (Finite (3 # 2))))
    (serving true doc_script_echo)
  = (inr (mkResult (Plain "h") false), [mkRequest "http://a" 15000]).
Proof. reflexivity. Qed.

(** C9: when [maxLength] is missing, is NaN or is zero, the limit in force
    is the default 5000: the text returned for a fetched page is the first
    5000 characters of the normalised page text, so its length is the
    smaller of 5000 and the length of that text. *)
Theorem falsy_maxLength_defaults (env : Env) (a : Arguments_)
  (r : Response) (html : string) :
  Number (arg_maxLength a) = NaN
  \/ (exists q, Number (arg_maxLength a) = Finite q /\ (q == 0)%Q) ->
  fetch env [] (mkRequest (String_ (arg_url a)) 15000) = inr r ->
  body r = inr html ->
  effective_maxLength a = of_Z 5000
  /\ forall call boilerplate,
      (call = call_tool_ts /\ boilerplate = boilerplate_ts)
      \/ (call = call_tool_js /\ boilerplate = boilerplate_js) ->
      let normalised :=
        JsString.trim
          (JsString.replace_ws
             (page_text boilerplate (cheerio_load env html))) in
      exists s log,
        run (call "get_page_content" a) env
        = (inr (mkResult (Plain s) false), log)
        /\ s = String.substring 0 5000 normalised
        /\ String.length s = Nat.min 5000 (String.length normalised).
Proof.
  intros Hz Hf Hb.
  assert (E : effective_maxLength a = of_Z 5000).
  { unfold effective_maxLength. apply falsy_number_default.
    destruct Hz as [-> | (q & -> & Hq)]; [reflexivity|].
    cbn [truthy]. apply Qeq_bool_iff in Hq. rewrite Hq. reflexivity. }
  split; [exact E|].
  intros call boilerplate Hc normalised.
  assert (R : run (call "get_page_content" a) env
              = try_catch (get_page_content_branch boilerplate a) on_error
                  env [])
    by (destruct Hc as [[-> ->] | [-> ->]]; reflexivity).
  assert (S : string_slice0 normalised (of_Z 5000)
              = String.substring 0 5000 normalised).
  { unfold string_slice0.
    change (of_Z 5000) with (of_Z (Z.of_nat 5000)).
    rewrite slice_to_integer.
    apply substring_0_min. }
  eexists _, _. rewrite R. unfold try_catch.
  rewrite (get_page_content_returns env _ a r html Hf Hb).
  split; [reflexivity|].
  unfold extract_content. fold normalised. rewrite E, S.
  split; [reflexivity|apply substring_0_length].
Qed.

Lemma falsy_maxLength_defaults_witness :
  effective_maxLength (content_args "http://a" (Finite 0)) = of_Z 5000
  /\ forall call boilerplate,
      (call = call_tool_ts /\ boilerplate = boilerplate_ts)
      \/ (call = call_tool_js /\ boilerplate = boilerplate_js) ->
      let normalised :=
        JsString.trim
          (JsString.replace_ws (page_text boilerplate doc_script_echo)) in
      exists s log,
        run (call "get_page_content" (content_args "http://a" (Finite 0)))
          (serving true doc_script_echo)
        = (inr (mkResult (Plain s) false), log)
        /\ s = String.substring 0 5000 normalised
        /\ String.length s = Nat.min 5000 (String.length normalised).
Proof.
  apply (falsy_maxLength_defaults (serving true doc_script_echo)
           (content_args "http://a" (Finite 0))
           (mkResponse true (Some "text/html") (inr "<html>")) "<html>").
  - right. exists 0%Q. split; reflexivity.
  - reflexivity.
  - reflexivity.
Defined.

(* ===================================================================== *)
(** ** Search results *)
(* ===================================================================== *)

Section SearchFacts.

Lemma result_step_spec (acc : list SearchResult) (el : node) :
  result_step acc el
  = acc ++ (if block_valid el then [record_of el] else []).
Proof.
  unfold result_step, block_valid, record_of.
  destruct (block_url el) as [u|]; cbn [JsString.falsy negb andb].
  - rewrite negb_involutive.
    destruct (JsString.truthy u && JsString.truthy (block_title el));
      [reflexivity|symmetry; apply List.app_nil_r].
  - symmetry; apply List.app_nil_r.
Qed.

Lemma results_are_valid_blocks (els : list node) (acc : list SearchResult) :
  List.fold_left result_step els acc
  = acc ++ List.map record_of (List.filter block_valid els).
Proof.
  revert acc; induction els as [|el els IH]; intros acc.
  - symmetry; apply List.app_nil_r.
  - cbn [List.fold_left List.filter]. rewrite IH, result_step_spec.
    destruct (block_valid el); cbn [List.map].
    + rewrite <- List.app_assoc. reflexivity.
    + rewrite List.app_nil_r. reflexivity.
Qed.

Lemma slice_ten {A : Type} (l : list A) :
  array_slice0 l (of_Z 10) = List.firstn 10 l.
Proof.
  unfold array_slice0. change (of_Z 10) with (of_Z (Z.of_nat 10)).
  rewrite slice_to_integer.
  destruct (Nat.le_ge_cases 10 (List.length l)) as [H|H].
  - rewrite Nat.min_l by exact H. reflexivity.
  - rewrite Nat.min_r by exact H.
    rewrite List.firstn_all, List.firstn_all2 by exact H. reflexivity.
Qed.

Lemma in_firstn {A : Type} (n : nat) (l : list A) (x : A) :
  List.In x (List.firstn n l) -> List.In x l.
Proof.
  revert l; induction n as [|n IH]; intros [|a l]; simpl; try tauto.
  intros [H|H]; auto.
Qed.

End SearchFacts.

(** C10: every call of [search_web] returns a result; an array it prints
    has at most 10 elements, whatever [numResults] is, and a result without
    the error flag does print an array. *)
Theorem search_web_at_most_ten (env : Env) (a : Arguments_) :
  exists res log,
    run (call_tool_js "search_web" a) env = (inr res, log)
    /\ (forall items, json_of res = Some (JArray items) ->
                      (List.length items <= 10)%nat)
    /\ (isError res = false -> exists items, json_of res = Some (JArray items)).
Proof.
  unfold run, call_tool_js. cbn [String.eqb Ascii.eqb Bool.eqb].
  unfold try_catch, search_web_branch, bind.
  destruct (searchWeb (String_ (arg_query a)) env []) as [[e|found] log]
    eqn:E.
  - eexists _, log. split; [reflexivity|]. split.
    + intros items H. discriminate H.
    + intros H. discriminate H.
  - eexists _, log. split; [reflexivity|]. split.
    + intros items H. cbn in H. injection H as <-.
      rewrite List.length_map, array_slice0_length.
      pose proof (slice_to_le_len (List.length found)
                    (effective_numResults a)).
      pose proof (searchWeb_length env _ _ _ _ E). lia.
    + intros _. eexists. reflexivity.
Qed.

(** C10 on a page with eleven results and [numResults = 50]. *)
Example search_web_fifty_requested :
  exists items log,
    run (call_tool_js "search_web" (search_args "q" (of_Z 50)))
      (serving true doc_eleven_results)
    = (inr (mkResult (Stringified (JArray items)) false), log)
    /\ List.length items = 10%nat.
Proof. eexists _, _. split; reflexivity. Qed.

(** C8, as stated, fails in the "if" direction: the eleventh block of
    [doc_eleven_results] has a link and a title, and [searchWeb] leaves
    it out. *)
Lemma eleventh_valid_block_is_left_out :
  ~ (forall (env : Env) (q : string) (r : Response) (html : string)
            (out : list SearchResult) (log : list Request),
        fetch env []
          (mkRequest ("https://duckduckgo.com/html/?q="
                        ++ encodeURIComponent env q ++ "&kl=us-en")%string
             10000) = inr r ->
        body r = inr html ->
        searchWeb q env [] = (inr out, log) ->
        forall el,
          List.In el (select (ByClass "result") (cheerio_load env html)) ->
          (block_valid el = true <-> List.In (record_of el) out)).
Proof.
  intros H.
  specialize (H (serving true doc_eleven_results) "q" _ "<html>" _ _
                eq_refl eq_refl eq_refl
                (search_block "r11" "https://example.org/r11" "s")).
  assert (Hin : List.In (search_block "r11" "https://example.org/r11" "s")
                  (select (ByClass "result")
                     (cheerio_load (serving true doc_eleven_results)
                        "<html>"))).
  { vm_compute. do 10 right. left. reflexivity. }
  apply H in Hin. destruct Hin as [Hin _].
  specialize (Hin eq_refl). vm_compute in Hin.
  repeat (destruct Hin as [Hin|Hin]; [discriminate Hin|]).
  exact Hin.
Qed.

(** C8, amended: [searchWeb] returns, in document order, the records of the
    first 10 blocks that have both a link and non-empty title text.  So a
    record it returns always comes from such a block, every such block is
    included when there are at most 10 of them, a block missing either adds
    nothing and raises nothing, and the snippet of a block without snippet
    element is the empty string. *)
Theorem search_results_are_first_valid_blocks (env : Env) (q : string)
  (r : Response) (html : string) :
  fetch env []
    (mkRequest ("https://duckduckgo.com/html/?q="
                  ++ encodeURIComponent env q ++ "&kl=us-en")%string
       10000) = inr r ->
  body r = inr html ->
  let blocks := select (ByClass "result") (cheerio_load env html) in
  exists out log,
    searchWeb q env [] = (inr out, log)
    /\ out = List.firstn 10
               (List.map record_of (List.filter block_valid blocks))
    /\ (forall rec, List.In rec out ->
          exists el, List.In el blocks /\ block_valid el = true
                     /\ rec = record_of el)
    /\ ((List.length (List.filter block_valid blocks) <= 10)%nat ->
        forall el, List.In el blocks -> block_valid el = true ->
                   List.In (record_of el) out)
    /\ (forall el acc, block_valid el = false -> result_step acc el = acc)
    /\ (forall el, find (ByClass "result__snippet") el = [] ->
                   result_snippet (record_of el) = EmptyString).
Proof.
  intros Hf Hb blocks.
  eexists _, _. split; [apply (searchWeb_returns env q r html Hf Hb)|].
  assert (E : array_slice0 (extract_results (cheerio_load env html)) (of_Z 10)
              = List.firstn 10
                  (List.map record_of (List.filter block_valid blocks))).
  { rewrite slice_ten. unfold extract_results.
    rewrite results_are_valid_blocks. reflexivity. }
  rewrite E. split; [reflexivity|]. split; [|split; [|split]].
  - intros rec Hin. apply in_firstn in Hin.
    apply List.in_map_iff in Hin as (el & <- & Hel).
    apply List.filter_In in Hel as [Hel Hv]. eauto.
  - intros Hlen el Hel Hv.
    rewrite List.firstn_all2 by (rewrite List.length_map; exact Hlen).
    apply List.in_map, List.filter_In. split; assumption.
  - intros el acc Hv. rewrite result_step_spec, Hv. apply List.app_nil_r.
  - intros el He. unfold record_of, block_snippet. cbn [result_snippet].
    rewrite He. reflexivity.
Qed.

Lemma search_results_are_first_valid_blocks_witness :
  exists out log,
    searchWeb "q" (serving true doc_eleven_results) [] = (inr out, log)
    /\ List.length out = 10%nat.
Proof.
  destruct (search_results_are_first_valid_blocks
              (serving true doc_eleven_results) "q"
              (mkResponse true (Some "text/html") (inr "<html>")) "<html>"
              eq_refl eq_refl)
    as (out & log & Hs & Ho & _).
  exists out, log. split; [exact Hs|]. rewrite Ho. reflexivity.
Defined.

(* ===================================================================== *)
(** ** Boilerplate removal *)
(* ===================================================================== *)

(** C7, as stated, fails: the text of a [script] element can also be text of
    the page proper.  In [doc_script_echo] the script holds "hi" and so does
    a paragraph, and the returned text is "hi". *)
Lemma script_text_can_be_page_text :
  ~ (forall (env : Env) (u : string) (r : Response) (html : string)
            (res : CallToolResult) (log : list Request) (el : node)
            (s : string),
        fetch env [] (mkRequest u 15000) = inr r ->
        body r = inr html ->
        run (call_tool_ts "get_page_content" (url_args u)) env
        = (inr res, log) ->
        plain_text res = Some s ->
        List.In el (all_nodes (cheerio_load env html)) ->
        has_tag "script" el = true ->
        JsString.includes (textContent el) s = false).
Proof.
  intros H.
  specialize (H (serving true doc_script_echo) "http://a" _ "<html>" _ _
                (Element "script" [] [Text "hi"]) "hi"
                eq_refl eq_refl eq_refl eq_refl).
  assert (Hin : List.In (Element "script" [] [Text "hi"])
                  (all_nodes (cheerio_load (serving true doc_script_echo)
                                "<html>"))).
  { vm_compute. do 3 right. left. reflexivity. }
  specialize (H Hin eq_refl). vm_compute in H. discriminate H.
Qed.

(** C7, amended: the [script] elements are removed before any text is read,
    so what they hold has no influence on the text returned by
    [get_page_content].  No [script] element is left in the document the
    text is read from, and two runs whose documents differ only in the
    attributes and content of their [script] elements return the same
    result. *)
Theorem script_content_is_ignored (env env' : Env) (a : Arguments_) :
  (forall log rq, fetch env log rq = fetch env' log rq) ->
  (forall html,
      List.Forall2 script_variant (cheerio_load env html)
        (cheerio_load env' html)) ->
  run (call_tool_ts "get_page_content" a) env
  = run (call_tool_ts "get_page_content" a) env'
  /\ run (call_tool_js "get_page_content" a) env
     = run (call_tool_js "get_page_content" a) env'
  /\ forall html,
      List.Forall (fun m => has_tag "script" m = false)
        (all_nodes (remove boilerplate_ts (cheerio_load env html)))
      /\ List.Forall (fun m => has_tag "script" m = false)
           (all_nodes (remove boilerplate_js (cheerio_load env html))).
Proof.
  intros Hfetch Hload.
  assert (Sts : List.In "script" boilerplate_ts) by (left; reflexivity).
  assert (Sjs : List.In "script" boilerplate_js) by (left; reflexivity).
  assert (R : forall boilerplate, List.In "script" boilerplate ->
                try_catch (get_page_content_branch boilerplate a) on_error
                  env []
                = try_catch (get_page_content_branch boilerplate a) on_error
                    env' []).
  { intros boilerplate Hs.
    unfold try_catch, get_page_content_branch, bind, fetchWithTimeout,
      settle, ask, ret, throw.
    rewrite Hfetch.
    destruct (fetch env' [] _) as [e|r]; [reflexivity|].
    destruct (body r) as [e|html]; [reflexivity|].
    unfold extract_content, page_text.
    rewrite (remove_variant boilerplate Hs _ _ (Hload html)).
    reflexivity. }
  split; [|split].
  - rewrite !call_get_page_content_ts. apply R, Sts.
  - rewrite !call_get_page_content_js. apply R, Sjs.
  - intros html. split; apply remove_no_script; assumption.
Qed.

Lemma script_content_is_ignored_witness :
  run (call_tool_ts "get_page_content" (url_args "http://a"))
    (serving true doc_script_echo)
  = run (call_tool_ts "get_page_content" (url_args "http://a"))
      (serving true doc_script_other).
Proof.
  apply (script_content_is_ignored (serving true doc_script_echo)
           (serving true doc_script_other) (url_args "http://a")).
  - reflexivity.
  - intros html. simpl.
    repeat (constructor; try apply sv_script).
Defined.

(* ===================================================================== *)
(** ** The handler as a whole *)
(* ===================================================================== *)

Section HandlerFacts.

Variable env : Env.

Lemma run_try_catch (m : M CallToolResult) :
  run (try_catch m on_error) env
  = match m env [] with
    | (inl e, l) =>
        (inr (mkResult (Stringified (error_json (message_of e))) true), l)
    | (inr res, l) => (inr res, l)
    end.
Proof.
  unfold run, try_catch, on_error, ret. destruct (m env []) as [[e|res] l];
    reflexivity.
Qed.

(** How each handler dispatches on the tool name. *)
Lemma dispatch_ts (name : string) (a : Arguments_) :
  call_tool_ts name a
  = try_catch
      (if String.eqb name "fetch_link_preview"
       then fetch_link_preview_branch a
       else if String.eqb name "get_page_content"
       then get_page_content_branch boilerplate_ts a
       else unknown_tool name)
      on_error.
Proof. reflexivity. Qed.

Lemma dispatch_js (name : string) (a : Arguments_) :
  call_tool_js name a
  = try_catch
      (if String.eqb name "fetch_link_preview"
       then fetch_link_preview_branch a
       else if String.eqb name "search_web"
       then search_web_branch a
       else if String.eqb name "get_page_content"
       then get_page_content_branch boilerplate_js a
       else unknown_tool name)
      on_error.
Proof. reflexivity. Qed.

(** The exact log of the favicon probe. *)
Lemma getFavicon_requests (u : string) (log : list Request) :
  snd (getFavicon u env log)
  = match URL_origin env u with
    | Some o => log ++ [mkRequest (o ++ "/favicon.ico")%string 3000]
    | None => log
    end.
Proof.
  unfold getFavicon, try_catch, bind, new_URL_origin, fetchWithTimeout, ret.
  destruct (URL_origin env u) as [o|]; [|reflexivity].
  destruct (fetch env log _) as [e|r]; [|destruct (ok r)]; reflexivity.
Qed.

Lemma fetchLinkPreview_run (u : string) :
  fetchLinkPreview u env []
  = match page_outcome env (mkRequest u 15000) with
    | inl e => (inl e, [mkRequest u 15000])
    | inr (r, html) =>
        match getFavicon u env [mkRequest u 15000] with
        | (inl e, l) => (inl e, l)
        | (inr icon, l) =>
            (inr (set_favicon (extract_preview u r (cheerio_load env html))
                    icon), l)
        end
    end.
Proof.
  unfold fetchLinkPreview, page_outcome, bind, fetchWithTimeout, settle, ask,
    ret, throw. cbn [List.app].
  destruct (fetch env [] _) as [e|r]; [reflexivity|].
  destruct (body r) as [e|html]; reflexivity.
Qed.

Lemma get_page_content_run (boilerplate : list string) (a : Arguments_) :
  let rq := mkRequest (String_ (arg_url a)) 15000 in
  get_page_content_branch boilerplate a env []
  = match page_outcome env rq with
    | inl e => (inl e, [rq])
    | inr (r, html) =>
        (inr (mkResult
                (Plain (extract_content boilerplate (cheerio_load env html)
                          (effective_maxLength a)))
                false), [rq])
    end.
Proof.
  unfold get_page_content_branch, page_outcome, bind, fetchWithTimeout,
    settle, ask, ret, throw. cbn [List.app].
  destruct (fetch env [] _) as [e|r]; [reflexivity|].
  destruct (body r) as [e|html]; reflexivity.
Qed.

Lemma search_web_run (a : Arguments_) :
  let rq := mkRequest (search_url env (String_ (arg_query a))) 10000 in
  search_web_branch a env []
  = match page_outcome env rq with
    | inl e => (inl e, [rq])
    | inr (r, html) =>
        (inr (mkResult
                (Stringified
                   (JArray
                      (List.map result_json
                         (array_slice0
                            (array_slice0
                               (extract_results (cheerio_load env html))
                               (of_Z 10))
                            (effective_numResults a)))))
                false), [rq])
    end.
Proof.
  unfold search_web_branch, searchWeb, search_url, page_outcome, bind,
    fetchWithTimeout, settle, ask, ret, throw. cbn [List.app].
  destruct (fetch env [] _) as [e|r]; [reflexivity|].
  destruct (body r) as [e|html]; reflexivity.
Qed.

Lemma fetch_link_preview_run (a : Arguments_) :
  fetch_link_preview_branch a env []
  = if negb (JsString.truthy (String_ (arg_url a)))
    then (inl (JsError "URL is required"), [])
    else match fetchLinkPreview (String_ (arg_url a)) env [] with
         | (inl e, l) => (inl e, l)
         | (inr p, l) =>
             (inr (mkResult (Stringified (preview_json p)) false), l)
         end.
Proof.
  unfold fetch_link_preview_branch.
  destruct (negb (JsString.truthy (String_ (arg_url a)))); [reflexivity|].
  unfold bind, ret.
  destruct (fetchLinkPreview _ env []) as [[e|p] l]; reflexivity.
Qed.

Lemma branch_success (name : string) (a : Arguments_)
  (res : CallToolResult) (l : list Request) :
  (fetch_link_preview_branch a env [] = (inr res, l) -> plain_success res)
  /\ (search_web_branch a env [] = (inr res, l) -> plain_success res)
  /\ (forall boilerplate,
         get_page_content_branch boilerplate a env [] = (inr res, l) ->
         plain_success res)
  /\ unknown_tool name env [] <> (inr res, l).
Proof.
  split; [|split; [|split]].
  - rewrite fetch_link_preview_run. destruct (negb _); [discriminate|].
    destruct (fetchLinkPreview _ env []) as [[e|p] l']; [discriminate|].
    intros E; injection E as <- _. split; [reflexivity|discriminate].
  - rewrite search_web_run.
    destruct (page_outcome env _) as [e|[r html]]; [discriminate|].
    intros E; injection E as <- _. split; [reflexivity|discriminate].
  - intros boilerplate. rewrite get_page_content_run.
    destruct (page_outcome env _) as [e|[r html]]; [discriminate|].
    intros E; injection E as <- _. split; [reflexivity|discriminate].
  - discriminate.
Qed.

End HandlerFacts.

(** X1: a call never ends with an exception.  Whatever the tool name, the
    arguments and the network, what a call settles with is a result, and
    its error flag is set exactly when its text is the report
    [{error: message}]. *)
Theorem handler_reports_every_failure (env : Env) (name : string)
  (a : Arguments_) (call : string -> Arguments_ -> M CallToolResult)
  (out : exn + CallToolResult) (log : list Request) :
  call = call_tool_ts \/ call = call_tool_js ->
  run (call name a) env = (out, log) ->
  exists res,
    out = inr res
    /\ (isError res = true
        <-> exists msg, content_text res = Stringified (error_json msg)).
Proof.
  intros Hc.
  assert (K : forall m : M CallToolResult,
             (forall res l, m env [] = (inr res, l) -> plain_success res) ->
             run (try_catch m on_error) env = (out, log) ->
             exists res,
               out = inr res
               /\ (isError res = true
                   <-> exists msg,
                       content_text res = Stringified (error_json msg))).
  { intros m Hm. rewrite run_try_catch.
    destruct (m env []) as [[e|res] l] eqn:E; intros Hr;
      injection Hr as <- _.
    - eexists. split; [reflexivity|]. cbn. split; eauto.
    - destruct (Hm res l eq_refl) as (He & Hmsg).
      exists res. split; [reflexivity|]. rewrite He. split.
      + discriminate.
      + intros (msg & H). elim (Hmsg msg H). }
  destruct Hc as [-> | ->].
  - rewrite dispatch_ts. apply K. intros res l.
    destruct (branch_success env name a res l) as (B1 & _ & B3 & B4).
    destruct (String.eqb name "fetch_link_preview"); [exact B1|].
    destruct (String.eqb name "get_page_content"); [apply B3|].
    intros E; elim (B4 E).
  - rewrite dispatch_js. apply K. intros res l.
    destruct (branch_success env name a res l) as (B1 & B2 & B3 & B4).
    destruct (String.eqb name "fetch_link_preview"); [exact B1|].
    destruct (String.eqb name "search_web"); [exact B2|].
    destruct (String.eqb name "get_page_content"); [apply B3|].
    intros E; elim (B4 E).
Qed.

Lemma handler_reports_every_failure_witness :
  exists res,
    (inr (mkResult (Stringified (error_json "request failed")) true)
     : exn + CallToolResult)
    = inr res
    /\ (isError res = true
        <-> exists msg, content_text res = Stringified (error_json msg)).
Proof.
  apply (handler_reports_every_failure (offline doc_untitled)
           "get_page_content" (url_args "http://a") call_tool_js _
           [mkRequest "http://a" 15000]).
  - right. reflexivity.
  - reflexivity.
Defined.

(** X2: a call whose tool name is not in the list the server publishes is
    answered with the report "Unknown tool: <name>", the error flag set, and
    no request is issued. *)
Theorem unlisted_tool_is_rejected (env : Env) (name : string)
  (a : Arguments_) :
  (listed list_tools_ts name = false ->
   run (call_tool_ts name a) env
   = (inr (mkResult
             (Stringified (error_json ("Unknown tool: " ++ name)%string))
             true), []))
  /\ (listed list_tools_js name = false ->
      run (call_tool_js name a) env
      = (inr (mkResult
                (Stringified (error_json ("Unknown tool: " ++ name)%string))
                true), [])).
Proof.
  unfold listed, list_tools_ts, list_tools_js. cbn [existsb tool_name].
  split; intros H.
  - apply orb_false_iff in H as [H1 H]. apply orb_false_iff in H as [H2 _].
    rewrite dispatch_ts, H1, H2. reflexivity.
  - apply orb_false_iff in H as [H1 H]. apply orb_false_iff in H as [H2 H].
    apply orb_false_iff in H as [H3 _].
    rewrite dispatch_js, H1, H2, H3. reflexivity.
Qed.

Lemma unlisted_tool_is_rejected_witness :
  run (call_tool_ts "search_web" (search_args "q" (of_Z 3)))
    (serving true doc_eleven_results)
  = (inr (mkResult
            (Stringified (error_json "Unknown tool: search_web")) true), []).
Proof.
  apply (proj1 (unlisted_tool_is_rejected (serving true doc_eleven_results)
                  "search_web" (search_args "q" (of_Z 3)))).
  reflexivity.
Defined.

Section RequestFacts.

Variable env : Env.

Lemma getFavicon_value (u : string) (log : list Request) :
  fst (getFavicon u env log)
  = inr match URL_origin env u with
        | Some o =>
            match fetch env log
                    (mkRequest (o ++ "/favicon.ico")%string 3000) with
            | inr r => if ok r then Some (o ++ "/favicon.ico")%string
                       else None
            | inl _ => None
            end
        | None => None
        end.
Proof.
  unfold getFavicon, try_catch, bind, new_URL_origin, fetchWithTimeout, ret.
  destruct (URL_origin env u) as [o|]; [|reflexivity].
  destruct (fetch env log _) as [e|r]; [|destruct (ok r)]; reflexivity.
Qed.

(** The requests of a [fetch_link_preview] call, in order. *)
Lemma fetch_link_preview_requests (a : Arguments_) :
  let u := String_ (arg_url a) in
  snd (fetch_link_preview_branch a env [])
  = if negb (JsString.truthy u) then []
    else match page_outcome env (mkRequest u 15000) with
         | inl _ => [mkRequest u 15000]
         | inr _ =>
             match URL_origin env u with
             | Some o => [mkRequest u 15000;
                          mkRequest (o ++ "/favicon.ico")%string 3000]
             | None => [mkRequest u 15000]
             end
         end.
Proof.
  intros u. rewrite fetch_link_preview_run. fold u.
  destruct (negb (JsString.truthy u)); [reflexivity|].
  rewrite fetchLinkPreview_run.
  destruct (page_outcome env _) as [e|[r html]]; [reflexivity|].
  pose proof (getFavicon_requests env u [mkRequest u 15000]) as Hl.
  destruct (getFavicon u env [mkRequest u 15000]) as [[e|icon] l];
    cbn [snd] in *; subst l; destruct (URL_origin env u); reflexivity.
Qed.

Lemma snd_run_try_catch (m : M CallToolResult) :
  snd (run (try_catch m on_error) env) = snd (m env []).
Proof.
  rewrite run_try_catch. destruct (m env []) as [[e|res] l]; reflexivity.
Qed.

End RequestFacts.

(** X3: when the first request of a call fails (the request is rejected or
    timed out, or reading the body fails) with an exception [e], every tool
    answers with the report [{error: e.message}] and the error flag, after
    that one request; [fetch_link_preview] then does not probe the
    favicon. *)
Theorem page_failure_is_reported (env : Env) (a : Arguments_) (e : exn)
  (call : string -> Arguments_ -> M CallToolResult) :
  call = call_tool_ts \/ call = call_tool_js ->
  let report :=
    inr (mkResult (Stringified (error_json (message_of e))) true) in
  let page := mkRequest (String_ (arg_url a)) 15000 in
  let search := mkRequest (search_url env (String_ (arg_query a))) 10000 in
  (page_outcome env page = inl e ->
   run (call "get_page_content" a) env = (report, [page]))
  /\ (page_outcome env page = inl e ->
      String_ (arg_url a) <> EmptyString ->
      run (call "fetch_link_preview" a) env = (report, [page]))
  /\ (page_outcome env search = inl e ->
      run (call_tool_js "search_web" a) env = (report, [search])).
Proof.
  intros Hc report page search. split; [|split].
  - intros Hp.
    assert (R : exists boilerplate,
               run (call "get_page_content" a) env
               = run (try_catch (get_page_content_branch boilerplate a)
                        on_error) env)
      by (destruct Hc as [-> | ->]; eexists; reflexivity).
    destruct R as (boilerplate & ->).
    rewrite run_try_catch, get_page_content_run. fold page. rewrite Hp.
    reflexivity.
  - intros Hp Hu.
    rewrite (call_fetch_link_preview call a env Hc).
    change (try_catch (fetch_link_preview_branch a) on_error env [])
      with (run (try_catch (fetch_link_preview_branch a) on_error) env).
    rewrite run_try_catch, fetch_link_preview_run.
    destruct (String_ (arg_url a)) as [|c u] eqn:Eu; [congruence|].
    cbn [JsString.truthy negb]. rewrite fetchLinkPreview_run.
    unfold page in Hp. rewrite Hp. reflexivity.
  - intros Hp.
    change (run (call_tool_js "search_web" a) env)
      with (run (try_catch (search_web_branch a) on_error) env).
    rewrite run_try_catch, search_web_run. fold search. rewrite Hp.
    reflexivity.
Qed.

Lemma page_failure_is_reported_witness :
  run (call_tool_ts "fetch_link_preview" (url_args "http://a"))
    (offline doc_untitled)
  = (inr (mkResult (Stringified (error_json "request failed")) true),
     [mkRequest "http://a" 15000]).
Proof.
  apply (proj1 (proj2 (page_failure_is_reported (offline doc_untitled)
                         (url_args "http://a") (JsError "request failed")
                         call_tool_ts (or_introl eq_refl)))).
  - reflexivity.
  - discriminate.
Defined.

(** X4: every request a call issues carries one of the three timeouts of
    the program (15 s for a page, 10 s for a search, 3 s for the favicon),
    and a call issues at most two requests. *)
Theorem requests_are_bounded (env : Env) (name : string) (a : Arguments_) :
  (List.Forall known_timeout (snd (run (call_tool_ts name a) env))
   /\ (List.length (snd (run (call_tool_ts name a) env)) <= 2)%nat)
  /\ (List.Forall known_timeout (snd (run (call_tool_js name a) env))
      /\ (List.length (snd (run (call_tool_js name a) env)) <= 2)%nat).
Proof.
  assert (P : forall boilerplate,
             let l := snd (get_page_content_branch boilerplate a env []) in
             List.Forall known_timeout l /\ (List.length l <= 2)%nat).
  { intros boilerplate. rewrite get_page_content_run.
    destruct (page_outcome env _) as [e|[r html]]; cbn [snd];
      (split; [repeat constructor|cbn; lia]). }
  assert (S : let l := snd (search_web_branch a env []) in
              List.Forall known_timeout l /\ (List.length l <= 2)%nat).
  { rewrite search_web_run.
    destruct (page_outcome env _) as [e|[r html]]; cbn [snd];
      (split; [repeat constructor; right; left; reflexivity|cbn; lia]). }
  assert (F : let l := snd (fetch_link_preview_branch a env []) in
              List.Forall known_timeout l /\ (List.length l <= 2)%nat).
  { cbv zeta. rewrite fetch_link_preview_requests.
    destruct (negb _); [split; [constructor|cbn; lia]|].
    destruct (page_outcome env _) as [e|[r html]];
      [split; [repeat constructor|cbn; lia]|].
    destruct (URL_origin env _); (split; [|cbn; lia]).
    - constructor; [left; reflexivity|].
      constructor; [right; right; reflexivity|constructor].
    - repeat constructor. }
  assert (U : let l := snd (unknown_tool name env []) in
              List.Forall known_timeout l /\ (List.length l <= 2)%nat)
    by (split; [constructor|cbn; lia]).
  split.
  - rewrite dispatch_ts, snd_run_try_catch.
    destruct (String.eqb name "fetch_link_preview"); [exact F|].
    destruct (String.eqb name "get_page_content"); [apply P|exact U].
  - rewrite dispatch_js, snd_run_try_catch.
    destruct (String.eqb name "fetch_link_preview"); [exact F|].
    destruct (String.eqb name "search_web"); [exact S|].
    destruct (String.eqb name "get_page_content"); [apply P|exact U].
Qed.

(** X5: the requests of a [fetch_link_preview] call, in order: none when
    the URL is empty; otherwise the page, and after it, only when the page
    was fetched and read and the URL parses, the probe of
    [<origin>/favicon.ico]. *)
Theorem favicon_probe_follows_the_page (env : Env) (a : Arguments_)
  (call : string -> Arguments_ -> M CallToolResult) :
  call = call_tool_ts \/ call = call_tool_js ->
  let u := String_ (arg_url a) in
  snd (run (call "fetch_link_preview" a) env)
  = if negb (JsString.truthy u) then []
    else match page_outcome env (mkRequest u 15000) with
         | inl _ => [mkRequest u 15000]
         | inr _ =>
             match URL_origin env u with
             | Some o => [mkRequest u 15000;
                          mkRequest (o ++ "/favicon.ico")%string 3000]
             | None => [mkRequest u 15000]
             end
         end.
Proof.
  intros Hc u.
  rewrite (call_fetch_link_preview call a env Hc).
  change (try_catch (fetch_link_preview_branch a) on_error env [])
    with (run (try_catch (fetch_link_preview_branch a) on_error) env).
  rewrite snd_run_try_catch. apply fetch_link_preview_requests.
Qed.

Lemma favicon_probe_follows_the_page_witness :
  snd (run (call_tool_ts "fetch_link_preview" (url_args "http://a/b?c=1"))
         (serving_site doc_untitled))
  = [mkRequest "http://a/b?c=1" 15000;
     mkRequest "http://a/favicon.ico" 3000].
Proof.
  apply (favicon_probe_follows_the_page (serving_site doc_untitled)
           (url_args "http://a/b?c=1") call_tool_ts).
  left. reflexivity.
Defined.

(** X6: [getFavicon] returns an icon URL exactly when the page URL parses,
    the probe of [<origin>/favicon.ico] is answered and the answer has a
    success status; the URL it returns is then that probed URL. *)
Theorem favicon_is_the_probed_url (env : Env) (u : string)
  (log : list Request) (icon : string) :
  fst (getFavicon u env log) = inr (Some icon)
  <-> exists o r,
      URL_origin env u = Some o
      /\ fetch env log (mkRequest (o ++ "/favicon.ico")%string 3000) = inr r
      /\ ok r = true
      /\ icon = (o ++ "/favicon.ico")%string.
Proof.
  rewrite getFavicon_value. split.
  - destruct (URL_origin env u) as [o|]; [|discriminate].
    destruct (fetch env log _) as [e|r] eqn:Hf; [discriminate|].
    destruct (ok r) eqn:Hk; [|discriminate].
    intros E. injection E as <-. exists o, r. auto.
  - intros (o & r & -> & -> & -> & ->). reflexivity.
Qed.

Lemma favicon_is_the_probed_url_witness :
  fst (getFavicon "http://a/b?c=1" (serving_site doc_untitled) [])
  = inr (Some "http://a/favicon.ico").
Proof.
  apply (proj2 (favicon_is_the_probed_url (serving_site doc_untitled)
                  "http://a/b?c=1" [] "http://a/favicon.ico")).
  exists "http://a", (mkResponse true (Some "text/html") (inr "<html>")).
  repeat split.
Defined.

(* ===================================================================== *)
(** ** Where each field of the preview comes from *)
(* ===================================================================== *)

Section FoldFacts.

Variable step : LinkPreview -> node -> LinkPreview.
Variables sel f : node -> bool.
Variable get : LinkPreview -> option string.
Hypothesis f_selected : forall el, f el = true -> sel el = true.

Lemma unselected (el : node) : sel el = false -> f el = false.
Proof.
  intros H. destruct (f el) eqn:E; auto.
  rewrite (f_selected el E) in H. discriminate.
Qed.

(** A field assigned without a guard ends with the last value. *)
Lemma fold_last_wins :
  (forall p el, sel el = true ->
                get (step p el)
                = if f el then Some (content_of el) else get p) ->
  forall ns p,
    get (List.fold_left step (List.filter sel ns) p)
    = match last_of (List.filter f ns) with
      | Some el => Some (content_of el)
      | None => get p
      end.
Proof.
  intros Hstep. induction ns as [|n ns IH]; intros p; [reflexivity|].
  cbn [List.filter].
  destruct (sel n) eqn:Hs; cbn [List.fold_left].
  - rewrite IH, (Hstep p n Hs).
    destruct (f n); auto.
    rewrite last_of_cons. destruct (last_of (List.filter f ns)); auto.
  - rewrite (unselected n Hs). apply IH.
Qed.

(** A field assigned only while it is unset keeps the first value. *)
Lemma fold_first_wins :
  (forall p el, sel el = true ->
                get (step p el)
                = if JsString.falsy (get p) && f el
                  then Some (content_of el) else get p) ->
  (forall el, f el = true -> content_of el <> EmptyString) ->
  forall ns p,
    no_empty (get p) ->
    get (List.fold_left step (List.filter sel ns) p)
    = or_opt (get p)
        (option_map content_of (List.hd_error (List.filter f ns))).
Proof.
  intros Hstep Hne. induction ns as [|n ns IH]; intros p Hp.
  - cbn. destruct (get p); reflexivity.
  - cbn [List.filter].
    destruct (sel n) eqn:Hs; cbn [List.fold_left].
    + pose proof (Hstep p n Hs) as E.
      destruct (get p) as [v|] eqn:Hg.
      * rewrite (falsy_some_false (Some v) v Hp eq_refl) in E.
        cbn [andb] in E. rewrite IH by (rewrite E; exact Hp).
        rewrite E. reflexivity.
      * cbn [JsString.falsy andb] in E.
        destruct (f n) eqn:Hf.
        -- rewrite IH by (rewrite E; intros K; injection K as K;
                          exact (Hne n Hf K)).
           rewrite E. reflexivity.
        -- rewrite IH by (rewrite E; discriminate). rewrite E. reflexivity.
    + rewrite (unselected n Hs). apply IH, Hp.
Qed.

Lemma fold_untouched (els : list node) (p : LinkPreview) :
  (forall q el, get (step q el) = get q) ->
  get (List.fold_left step els p) = get p.
Proof.
  intros H. revert p; induction els as [|el els IH]; intros p; cbn; auto.
  rewrite IH. apply H.
Qed.

End FoldFacts.

Ltac by_property x :=
  repeat match goal with
         | |- context [String.eqb x ?s] =>
             destruct (String.eqb_spec x s); [subst x; reflexivity|]
         end;
  try reflexivity.

Section StepFacts.

Variables (p : LinkPreview) (el : node).

Lemma og_selected_attrs :
  matches og_selector el = true ->
  has_tag "meta" el = true
  /\ exists x, attr_of "property" el = Some x /\ JsString.truthy x = true.
Proof.
  unfold og_selector, matches.
  destruct (has_tag "meta" el); [|discriminate].
  destruct (attr_of "property" el) as [x|]; [|discriminate].
  intros H. split; [reflexivity|]. exists x. split; [reflexivity|].
  destruct x; [discriminate|reflexivity].
Qed.

Lemma twitter_selected_attrs :
  matches twitter_selector el = true ->
  has_tag "meta" el = true
  /\ exists x, attr_of "name" el = Some x /\ JsString.truthy x = true.
Proof.
  unfold twitter_selector, matches.
  destruct (has_tag "meta" el); [|discriminate].
  destruct (attr_of "name" el) as [x|]; [|discriminate].
  intros H. split; [reflexivity|]. exists x. split; [reflexivity|].
  destruct x; [discriminate|reflexivity].
Qed.

(** What one selected OpenGraph tag does to each field. *)
Lemma og_step_fields :
  matches og_selector el = true ->
  title (og_step p el)
  = (if is_og_tag "og:title" el then Some (content_of el) else title p)
  /\ description (og_step p el)
     = (if is_og_tag "og:description" el then Some (content_of el)
        else description p)
  /\ image (og_step p el)
     = (if is_og_tag "og:image" el then Some (content_of el) else image p)
  /\ siteName (og_step p el)
     = (if is_og_tag "og:site_name" el then Some (content_of el)
        else siteName p)
  /\ type (og_step p el)
     = (if is_og_tag "og:type" el then Some (content_of el) else type p)
  /\ urlCanonical (og_step p el)
     = (if is_og_tag "og:url" el then Some (content_of el)
        else urlCanonical p)
  /\ twitterCard (og_step p el) = twitterCard p.
Proof.
  intros H. destruct (og_selected_attrs H) as (Hm & x & Hx & Tx).
  unfold is_og_tag, attr_is, has_content, content_of, og_step.
  rewrite Hm, Hx, Tx. cbn [negb orb andb].
  destruct (attr_of "content" el) as [c|];
    [|rewrite !andb_false_r; repeat split; reflexivity].
  cbn [JsString.falsy].
  destruct (JsString.truthy c);
    [|rewrite !andb_false_r; repeat split; reflexivity].
  cbn [negb]. rewrite !andb_true_r.
  repeat split; by_property x.
Qed.

(** What one selected Twitter tag does to each field. *)
Lemma twitter_step_fields :
  matches twitter_selector el = true ->
  title (twitter_step p el)
  = (if JsString.falsy (title p) && is_named_tag "twitter:title" el
     then Some (content_of el) else title p)
  /\ description (twitter_step p el)
     = (if JsString.falsy (description p)
           && is_named_tag "twitter:description" el
        then Some (content_of el) else description p)
  /\ image (twitter_step p el)
     = (if JsString.falsy (image p) && is_named_tag "twitter:image" el
        then Some (content_of el) else image p)
  /\ twitterCard (twitter_step p el)
     = (if is_named_tag "twitter:card" el then Some (content_of el)
        else twitterCard p).
Proof.
  intros H. destruct (twitter_selected_attrs H) as (Hm & x & Hx & Tx).
  unfold is_named_tag, attr_is, has_content, content_of, twitter_step.
  rewrite Hm, Hx, Tx. cbn [negb orb andb].
  destruct (attr_of "content" el) as [c|];
    [|rewrite !andb_false_r; repeat split; reflexivity].
  cbn [JsString.falsy].
  destruct (JsString.truthy c);
    [|rewrite !andb_false_r; repeat split; reflexivity].
  cbn [negb]. rewrite !andb_true_r.
  destruct (JsString.falsy (title p)), (JsString.falsy (description p)),
    (JsString.falsy (image p));
    rewrite ?andb_true_r, ?andb_false_r; cbn [andb];
    repeat split; by_property x.
Qed.

End StepFacts.

Section SourceFacts.

Lemma has_content_nonempty (el : node) :
  has_content el = true -> content_of el <> EmptyString.
Proof.
  unfold has_content, content_of.
  destruct (attr_of "content" el) as [c|]; [|discriminate].
  destruct c; [discriminate|]. intros _ H; discriminate.
Qed.

Lemma is_og_tag_content (prop : string) (el : node) :
  is_og_tag prop el = true -> content_of el <> EmptyString.
Proof.
  unfold is_og_tag. intros H. apply andb_true_iff in H as [_ H].
  apply has_content_nonempty, H.
Qed.

Lemma is_named_tag_content (name : string) (el : node) :
  is_named_tag name el = true -> content_of el <> EmptyString.
Proof.
  unfold is_named_tag. intros H. apply andb_true_iff in H as [_ H].
  apply has_content_nonempty, H.
Qed.

Lemma is_og_tag_selected (prop : string) (el : node) :
  JsString.starts_with "og:" prop = true ->
  is_og_tag prop el = true -> matches og_selector el = true.
Proof.
  unfold is_og_tag, attr_is, og_selector, matches. intros Hp.
  destruct (has_tag "meta" el); [|discriminate].
  destruct (attr_of "property" el) as [x|]; [|discriminate].
  destruct (String.eqb_spec x prop); [|discriminate].
  subst x. intros _. rewrite Hp. reflexivity.
Qed.

Lemma is_named_tag_selected (name : string) (el : node) :
  JsString.starts_with "twitter:" name = true ->
  is_named_tag name el = true -> matches twitter_selector el = true.
Proof.
  unfold is_named_tag, attr_is, twitter_selector, matches. intros Hp.
  destruct (has_tag "meta" el); [|discriminate].
  destruct (attr_of "name" el) as [x|]; [|discriminate].
  destruct (String.eqb_spec x name); [|discriminate].
  subst x. intros _. rewrite Hp. reflexivity.
Qed.

Lemma twitter_step_others (p : LinkPreview) (el : node) :
  siteName (twitter_step p el) = siteName p
  /\ type (twitter_step p el) = type p
  /\ urlCanonical (twitter_step p el) = urlCanonical p.
Proof.
  unfold twitter_step.
  destruct (attr_of "name" el); [|auto].
  destruct (attr_of "content" el); [|auto].
  repeat (break_if; [repeat split; reflexivity|]).
  repeat split; reflexivity.
Qed.

Lemma og_step_card (p : LinkPreview) (el : node) :
  twitterCard (og_step p el) = twitterCard p.
Proof.
  unfold og_step.
  destruct (attr_of "property" el); [|auto].
  destruct (attr_of "content" el); [|auto].
  repeat (break_if; [reflexivity|]). reflexivity.
Qed.

Lemma fallback_title_fields (doc : document) (p : LinkPreview) :
  no_empty (title p) ->
  title (fallback_title doc p)
  = or_opt (title p)
      (JsString.or_undefined
         (Some (JsString.trim (text (select (ByTag "title") doc)))))
  /\ description (fallback_title doc p) = description p
  /\ image (fallback_title doc p) = image p
  /\ siteName (fallback_title doc p) = siteName p
  /\ type (fallback_title doc p) = type p
  /\ urlCanonical (fallback_title doc p) = urlCanonical p
  /\ twitterCard (fallback_title doc p) = twitterCard p.
Proof.
  intros H. unfold fallback_title.
  destruct (title p) as [v|] eqn:E.
  - rewrite (falsy_some_false (Some v) v H eq_refl).
    rewrite E. repeat split; reflexivity.
  - cbn [JsString.falsy]. repeat split; reflexivity.
Qed.

Lemma description_fallback (ns : list node) :
  first_content (List.filter (matches description_selector) ns)
  = option_map content_of
      (List.hd_error (List.filter (is_named_tag "description") ns)).
Proof.
  induction ns as [|n ns IH]; [reflexivity|].
  cbn [List.filter].
  assert (Hm : matches description_selector n
               = has_tag "meta" n && attr_is "name" "description" n).
  { unfold description_selector, matches, attr_is.
    destruct (attr_of "name" n) as [x|]; [|reflexivity].
    rewrite (String.eqb_sym "description" x). reflexivity. }
  rewrite Hm. unfold is_named_tag at 1.
  destruct (has_tag "meta" n && attr_is "name" "description" n);
    cbn [andb]; [|exact IH].
  cbn [first_content]. unfold has_content.
  destruct (attr_of "content" n) as [c|] eqn:Hc; cbn [JsString.falsy negb].
  - destruct (JsString.truthy c); cbn [negb]; [|exact IH].
    cbn [List.hd_error option_map]. unfold content_of. rewrite Hc.
    reflexivity.
  - exact IH.
Qed.

Lemma fallback_description_fields (doc : document) (p : LinkPreview) :
  no_empty (description p) ->
  description (fallback_description doc p)
  = or_opt (description p)
      (first_content_of (is_named_tag "description") doc)
  /\ title (fallback_description doc p) = title p
  /\ image (fallback_description doc p) = image p
  /\ siteName (fallback_description doc p) = siteName p
  /\ type (fallback_description doc p) = type p
  /\ urlCanonical (fallback_description doc p) = urlCanonical p
  /\ twitterCard (fallback_description doc p) = twitterCard p.
Proof.
  intros H. unfold fallback_description, first_content_of, select.
  rewrite description_fallback.
  destruct (description p) as [v|] eqn:E.
  - rewrite (falsy_some_false (Some v) v H eq_refl).
    rewrite E. repeat split; reflexivity.
  - cbn [JsString.falsy].
    destruct (option_map _ _); rewrite ?E; repeat split; reflexivity.
Qed.

Lemma or_opt_assoc (a b c : option string) :
  or_opt (or_opt a b) c = or_opt a (or_opt b c).
Proof. destruct a; reflexivity. Qed.

Lemma or_opt_nonempty (a b : option string) :
  no_empty a -> no_empty b -> no_empty (or_opt a b).
Proof. destruct a; auto. Qed.

Lemma last_content_nonempty (f : node -> bool) (doc : document) :
  (forall el, f el = true -> content_of el <> EmptyString) ->
  no_empty (last_content f doc).
Proof.
  intros Hf. unfold last_content, no_empty.
  destruct (last_of _) as [el|] eqn:E; [|discriminate].
  apply last_of_In, List.filter_In in E as [_ E].
  cbn. intros K; injection K as K. exact (Hf el E K).
Qed.

Lemma first_content_of_nonempty (f : node -> bool) (doc : document) :
  (forall el, f el = true -> content_of el <> EmptyString) ->
  no_empty (first_content_of f doc).
Proof.
  intros Hf. unfold first_content_of, no_empty.
  destruct (List.filter f (all_nodes doc)) as [|el l] eqn:E; [discriminate|].
  assert (Hin : List.In el (List.filter f (all_nodes doc)))
    by (rewrite E; left; reflexivity).
  apply List.filter_In in Hin as [_ Hin].
  cbn. intros K; injection K as K. exact (Hf el Hin K).
Qed.

Lemma or_undefined_nonempty (x : option string) :
  no_empty (JsString.or_undefined x).
Proof.
  unfold no_empty, JsString.or_undefined.
  destruct x as [[|c s]|]; cbn; discriminate.
Qed.

(** The OpenGraph scan, field by field. *)
Lemma scan_og_fields (u : string) (r : Response) (doc : document) :
  let p := after_og u r doc in
  title p = last_content (is_og_tag "og:title") doc
  /\ description p = last_content (is_og_tag "og:description") doc
  /\ image p = last_content (is_og_tag "og:image") doc
  /\ siteName p = last_content (is_og_tag "og:site_name") doc
  /\ type p = last_content (is_og_tag "og:type") doc
  /\ urlCanonical p = last_content (is_og_tag "og:url") doc
  /\ twitterCard p = None.
Proof.
  assert (L : forall prop get,
             JsString.starts_with "og:" prop = true ->
             get (initial_preview u r doc) = None ->
             (forall p el, matches og_selector el = true ->
                           get (og_step p el)
                           = if is_og_tag prop el then Some (content_of el)
                             else get p) ->
             get (after_og u r doc) = last_content (is_og_tag prop) doc).
  { intros prop get Hp Hi Hs. unfold after_og, scan_og, select, last_content.
    rewrite (fold_last_wins og_step (matches og_selector) (is_og_tag prop)
               get (fun el => is_og_tag_selected prop el Hp) Hs).
    rewrite Hi. destruct (last_of _); reflexivity. }
  cbv zeta. repeat split.
  - apply L; [reflexivity|reflexivity|]. intros p el H.
    apply (og_step_fields p el H).
  - apply L; [reflexivity|reflexivity|]. intros p el H.
    apply (og_step_fields p el H).
  - apply L; [reflexivity|reflexivity|]. intros p el H.
    apply (og_step_fields p el H).
  - apply L; [reflexivity|reflexivity|]. intros p el H.
    apply (og_step_fields p el H).
  - apply L; [reflexivity|reflexivity|]. intros p el H.
    apply (og_step_fields p el H).
  - apply L; [reflexivity|reflexivity|]. intros p el H.
    apply (og_step_fields p el H).
  - unfold after_og, scan_og.
    rewrite (fold_untouched og_step twitterCard _ _ og_step_card).
    reflexivity.
Qed.

(** The Twitter scan, field by field, from a well-formed preview. *)
Lemma scan_twitter_fields (doc : document) (p : LinkPreview) :
  well_formed p ->
  let q := scan_twitter doc p in
  title q
  = or_opt (title p) (first_content_of (is_named_tag "twitter:title") doc)
  /\ description q
     = or_opt (description p)
         (first_content_of (is_named_tag "twitter:description") doc)
  /\ image q
     = or_opt (image p)
         (first_content_of (is_named_tag "twitter:image") doc)
  /\ twitterCard q
     = or_opt (last_content (is_named_tag "twitter:card") doc)
         (twitterCard p)
  /\ siteName q = siteName p /\ type q = type p
  /\ urlCanonical q = urlCanonical p.
Proof.
  intros (Ht & Hd & Hi). cbv zeta.
  unfold scan_twitter, select, first_content_of, last_content.
  split; [|split; [|split; [|split; [|split; [|split]]]]].
  - apply (fold_first_wins twitter_step (matches twitter_selector)
             (is_named_tag "twitter:title") title
             (fun el => is_named_tag_selected "twitter:title" el eq_refl));
      [|apply is_named_tag_content|exact Ht].
    intros q el H. apply (twitter_step_fields q el H).
  - apply (fold_first_wins twitter_step (matches twitter_selector)
             (is_named_tag "twitter:description") description
             (fun el => is_named_tag_selected "twitter:description" el eq_refl));
      [|apply is_named_tag_content|exact Hd].
    intros q el H. apply (twitter_step_fields q el H).
  - apply (fold_first_wins twitter_step (matches twitter_selector)
             (is_named_tag "twitter:image") image
             (fun el => is_named_tag_selected "twitter:image" el eq_refl));
      [|apply is_named_tag_content|exact Hi].
    intros q el H. apply (twitter_step_fields q el H).
  - rewrite (fold_last_wins twitter_step (matches twitter_selector)
               (is_named_tag "twitter:card") twitterCard
               (fun el => is_named_tag_selected "twitter:card" el eq_refl)).
    + destruct (last_of _); reflexivity.
    + intros q el H. apply (twitter_step_fields q el H).
  - apply (fold_untouched twitter_step siteName). intros q el.
    apply twitter_step_others.
  - apply (fold_untouched twitter_step type). intros q el.
    apply twitter_step_others.
  - apply (fold_untouched twitter_step urlCanonical). intros q el.
    apply twitter_step_others.
Qed.

End SourceFacts.

(** X7: the title of a preview is the content of the last [og:title] tag
    with content; without one, the content of the first [twitter:title] tag
    with content; without one, the trimmed text of the [title] elements, or
    nothing when that is empty. *)
Theorem title_sources (u : string) (r : Response) (doc : document) :
  title (extract_preview u r doc)
  = or_opt (last_content (is_og_tag "og:title") doc)
      (or_opt (first_content_of (is_named_tag "twitter:title") doc)
         (JsString.or_undefined
            (Some (JsString.trim (text (select (ByTag "title") doc)))))).
Proof.
  unfold extract_preview. fold (after_og u r doc).
  pose proof (after_og_well_formed u r doc) as W0.
  destruct (scan_og_fields u r doc) as (T0 & _).
  destruct (scan_twitter_fields doc _ W0) as (T1 & _).
  destruct (scan_twitter_keeps (select twitter_selector doc) _ W0)
    as (W1 & _). fold (scan_twitter doc (after_og u r doc)) in W1.
  destruct (fallback_title_fields doc _ (proj1 W1)) as (T2 & _).
  destruct (fallback_title_keeps doc _ W1) as (W2 & _).
  destruct (fallback_description_fields doc _ (proj1 (proj2 W2)))
    as (_ & T3 & _).
  rewrite T3, T2, T1, T0. apply or_opt_assoc.
Qed.

(** X8: the description of a preview is the content of the last
    [og:description] tag with content; without one, the content of the
    first [twitter:description] tag with content; without one, the content
    of the first [meta name="description"] tag with content; else
    nothing. *)
Theorem description_sources (u : string) (r : Response) (doc : document) :
  description (extract_preview u r doc)
  = or_opt (last_content (is_og_tag "og:description") doc)
      (or_opt (first_content_of (is_named_tag "twitter:description") doc)
         (first_content_of (is_named_tag "description") doc)).
Proof.
  unfold extract_preview. fold (after_og u r doc).
  pose proof (after_og_well_formed u r doc) as W0.
  destruct (scan_og_fields u r doc) as (_ & D0 & _).
  destruct (scan_twitter_fields doc _ W0) as (_ & D1 & _).
  destruct (scan_twitter_keeps (select twitter_selector doc) _ W0)
    as (W1 & _). fold (scan_twitter doc (after_og u r doc)) in W1.
  destruct (fallback_title_fields doc _ (proj1 W1)) as (_ & D2 & _).
  destruct (fallback_title_keeps doc _ W1) as (W2 & _).
  destruct (fallback_description_fields doc _ (proj1 (proj2 W2)))
    as (D3 & _).
  rewrite D3, D2, D1, D0. apply or_opt_assoc.
Qed.

(** X9: the image of a preview is the content of the last [og:image] tag
    with content; without one, the content of the first [twitter:image] tag
    with content; else nothing. *)
Theorem image_sources (u : string) (r : Response) (doc : document) :
  image (extract_preview u r doc)
  = or_opt (last_content (is_og_tag "og:image") doc)
      (first_content_of (is_named_tag "twitter:image") doc).
Proof.
  unfold extract_preview. fold (after_og u r doc).
  pose proof (after_og_well_formed u r doc) as W0.
  destruct (scan_og_fields u r doc) as (_ & _ & I0 & _).
  destruct (scan_twitter_fields doc _ W0) as (_ & _ & I1 & _).
  destruct (scan_twitter_keeps (select twitter_selector doc) _ W0)
    as (W1 & _). fold (scan_twitter doc (after_og u r doc)) in W1.
  destruct (fallback_title_fields doc _ (proj1 W1)) as (_ & _ & I2 & _).
  destruct (fallback_title_keeps doc _ W1) as (W2 & _).
  destruct (fallback_description_fields doc _ (proj1 (proj2 W2)))
    as (_ & _ & I3 & _).
  rewrite I3, I2, I1, I0. reflexivity.
Qed.

(** The fields with one source are settled by the scans. *)
Lemma single_sources_after_scans (u : string) (r : Response)
  (doc : document) :
  let p := extract_preview u r doc in
  siteName p = siteName (after_og u r doc)
  /\ type p = type (after_og u r doc)
  /\ urlCanonical p = urlCanonical (after_og u r doc)
  /\ twitterCard p
     = or_opt (last_content (is_named_tag "twitter:card") doc)
         (twitterCard (after_og u r doc)).
Proof.
  cbv zeta. unfold extract_preview. fold (after_og u r doc).
  pose proof (after_og_well_formed u r doc) as W0.
  destruct (scan_twitter_fields doc _ W0)
    as (_ & _ & _ & C1 & S1 & Y1 & U1).
  destruct (scan_twitter_keeps (select twitter_selector doc) _ W0)
    as (W1 & _). fold (scan_twitter doc (after_og u r doc)) in W1.
  destruct (fallback_title_fields doc _ (proj1 W1))
    as (_ & _ & _ & S2 & Y2 & U2 & C2).
  destruct (fallback_title_keeps doc _ W1) as (W2 & _).
  destruct (fallback_description_fields doc _ (proj1 (proj2 W2)))
    as (_ & _ & _ & S3 & Y3 & U3 & C3).
  rewrite S3, S2, S1, Y3, Y2, Y1, U3, U2, U1, C3, C2, C1.
  repeat split; reflexivity.
Qed.

(** X10: the site name, the type and the canonical URL of a preview come
    from OpenGraph alone, and the Twitter card from Twitter alone: each is
    the content of the last tag of its kind with content ([og:site_name],
    [og:type], [og:url], [twitter:card]), or nothing. *)
Theorem single_source_fields (u : string) (r : Response) (doc : document) :
  let p := extract_preview u r doc in
  siteName p = last_content (is_og_tag "og:site_name") doc
  /\ type p = last_content (is_og_tag "og:type") doc
  /\ urlCanonical p = last_content (is_og_tag "og:url") doc
  /\ twitterCard p = last_content (is_named_tag "twitter:card") doc.
Proof.
  cbv zeta.
  destruct (single_sources_after_scans u r doc) as (S & Y & U & C).
  destruct (scan_og_fields u r doc) as (_ & _ & _ & S0 & Y0 & U0 & C0).
  rewrite S, Y, U, C, S0, Y0, U0, C0.
  split; [reflexivity|]. split; [reflexivity|]. split; [reflexivity|].
  destruct (last_content (is_named_tag "twitter:card") doc); reflexivity.
Qed.

(** The four theorems above on one page. *)
Example sources_example :
  let p := extract_preview "http://a" (mkResponse true None (inr "<html>"))
             doc_fallbacks in
  title p = Some "First tweet"
  /\ description p = Some "Plain description"
  /\ image p = Some "http://a/og.png"
  /\ twitterCard p = Some "summary_large_image"
  /\ siteName p = None.
Proof. repeat split. Qed.

Section MemberFacts.

Lemma member_nonempty (k : string) (v : option string) :
  no_empty v -> List.Forall nonempty_string_member (member k v).
Proof.
  intros H. destruct v as [s|]; cbn; constructor; [|constructor].
  exists s. split; [reflexivity|]. intros ->. apply H. reflexivity.
Qed.

Lemma preview_members_nonempty (p : LinkPreview) :
  url p <> EmptyString ->
  no_empty (contentType p) -> no_empty (language p) ->
  no_empty (title p) -> no_empty (description p) -> no_empty (image p) ->
  no_empty (siteName p) -> no_empty (type p) ->
  no_empty (urlCanonical p) -> no_empty (twitterCard p) ->
  no_empty (favicon p) ->
  exists ms, preview_json p = JObject ms
             /\ List.Forall nonempty_string_member ms.
Proof.
  intros. eexists. split; [reflexivity|].
  repeat (apply List.Forall_app; split); auto using member_nonempty.
  constructor; [|constructor]. eexists. split; [reflexivity|assumption].
Qed.

Lemma og_step_meta (p : LinkPreview) (el : node) :
  url (og_step p el) = url p
  /\ contentType (og_step p el) = contentType p
  /\ language (og_step p el) = language p.
Proof.
  unfold og_step.
  destruct (attr_of "property" el); [|auto].
  destruct (attr_of "content" el); [|auto].
  repeat (break_if; [repeat split; reflexivity|]). repeat split; reflexivity.
Qed.

Lemma twitter_step_meta (p : LinkPreview) (el : node) :
  url (twitter_step p el) = url p
  /\ contentType (twitter_step p el) = contentType p
  /\ language (twitter_step p el) = language p.
Proof.
  unfold twitter_step.
  destruct (attr_of "name" el); [|auto].
  destruct (attr_of "content" el); [|auto].
  repeat (break_if; [repeat split; reflexivity|]). repeat split; reflexivity.
Qed.

Lemma fallbacks_meta (doc : document) (p : LinkPreview) :
  let q := fallback_description doc (fallback_title doc p) in
  url q = url p /\ contentType q = contentType p /\ language q = language p.
Proof.
  cbv zeta. unfold fallback_description, fallback_title.
  repeat break_if; try destruct (first_content _); repeat split; reflexivity.
Qed.

Lemma fold_keeps {A : Type} (step : LinkPreview -> node -> LinkPreview)
  (get : LinkPreview -> A) (els : list node) (p : LinkPreview) :
  (forall q el, get (step q el) = get q) ->
  get (List.fold_left step els p) = get p.
Proof.
  intros H. revert p; induction els as [|el els IH]; intros p; cbn; auto.
  rewrite IH. apply H.
Qed.

Lemma extract_preview_meta (u : string) (r : Response) (doc : document) :
  let p := extract_preview u r doc in
  url p = u
  /\ contentType p = JsString.or_undefined (content_type r)
  /\ language p
     = JsString.or_undefined (attr "lang" (select (ByTag "html") doc)).
Proof.
  cbv zeta. unfold extract_preview.
  destruct (fallbacks_meta doc
              (scan_twitter doc (scan_og doc (initial_preview u r doc))))
    as (-> & -> & ->).
  unfold scan_twitter, scan_og.
  rewrite (fold_keeps twitter_step url)
    by (intros; apply twitter_step_meta).
  rewrite (fold_keeps twitter_step contentType)
    by (intros; apply twitter_step_meta).
  rewrite (fold_keeps twitter_step language)
    by (intros; apply twitter_step_meta).
  rewrite (fold_keeps og_step url) by (intros; apply og_step_meta).
  rewrite (fold_keeps og_step contentType)
    by (intros; apply og_step_meta).
  rewrite (fold_keeps og_step language) by (intros; apply og_step_meta).
  repeat split; reflexivity.
Qed.

Lemma extract_preview_nonempty (u : string) (r : Response)
  (doc : document) :
  let p := extract_preview u r doc in
  no_empty (contentType p) /\ no_empty (language p)
  /\ no_empty (title p) /\ no_empty (description p) /\ no_empty (image p)
  /\ no_empty (siteName p) /\ no_empty (type p)
  /\ no_empty (urlCanonical p) /\ no_empty (twitterCard p).
Proof.
  cbv zeta.
  destruct (single_sources_after_scans u r doc) as (S & Y & U & C).
  destruct (scan_og_fields u r doc) as (_ & _ & _ & S0 & Y0 & U0 & C0).
  rewrite S, Y, U, C, S0, Y0, U0, C0.
  replace (or_opt (last_content (is_named_tag "twitter:card") doc) None)
    with (last_content (is_named_tag "twitter:card") doc)
    by (destruct (last_content _ doc); reflexivity).
  destruct (extract_preview_well_formed u r doc) as (T & D & I).
  destruct (extract_preview_meta u r doc) as (_ & -> & ->).
  repeat split;
    try assumption;
    try apply or_undefined_nonempty;
    apply last_content_nonempty; intros el;
    first [apply is_og_tag_content | apply is_named_tag_content].
Qed.

End MemberFacts.

(** X11: a [fetch_link_preview] call that succeeds prints an object all of
    whose members are non-empty strings: a field without a value is left
    out, never printed as an empty string. *)
Theorem preview_has_no_empty_member (env : Env) (a : Arguments_)
  (call : string -> Arguments_ -> M CallToolResult)
  (res : CallToolResult) (log : list Request) :
  call = call_tool_ts \/ call = call_tool_js ->
  run (call "fetch_link_preview" a) env = (inr res, log) ->
  isError res = false ->
  exists ms, content_text res = Stringified (JObject ms)
             /\ List.Forall nonempty_string_member ms.
Proof.
  intros Hc Hr He.
  rewrite (call_fetch_link_preview call a env Hc) in Hr.
  change (try_catch (fetch_link_preview_branch a) on_error env [])
    with (run (try_catch (fetch_link_preview_branch a) on_error) env) in Hr.
  rewrite run_try_catch, fetch_link_preview_run in Hr.
  destruct (String_ (arg_url a)) as [|c u] eqn:Eu.
  { cbn in Hr. injection Hr as <- _. discriminate He. }
  cbn [JsString.truthy negb] in Hr. rewrite fetchLinkPreview_run in Hr.
  destruct (page_outcome env _) as [e|[r html]].
  { injection Hr as <- _. discriminate He. }
  pose proof (getFavicon_value env (String c u)
                [mkRequest (String c u) 15000]) as Hv.
  destruct (getFavicon (String c u) env _) as [[e|icon] l];
    cbn [fst] in Hv; [discriminate Hv|].
  injection Hv as Hv. injection Hr as <- _. cbn [content_text].
  destruct (extract_preview_nonempty (String c u) r (cheerio_load env html))
    as (N1 & N2 & N3 & N4 & N5 & N6 & N7 & N8 & N9).
  destruct (preview_members_nonempty
              (set_favicon
                 (extract_preview (String c u) r (cheerio_load env html))
                 icon)) as (ms & Hms & Hall); auto.
  - cbn [set_favicon url].
    destruct (extract_preview_meta (String c u) r (cheerio_load env html))
      as (-> & _). discriminate.
  - cbn [set_favicon favicon]. rewrite Hv. unfold no_empty.
    destruct (URL_origin env _) as [o|]; [|discriminate].
    destruct (fetch env _ _) as [?|r']; [discriminate|].
    destruct (ok r'); [|discriminate].
    destruct o; discriminate.
  - exists ms. rewrite Hms. split; [reflexivity|exact Hall].
Qed.

Lemma preview_has_no_empty_member_witness :
  exists ms,
    content_text
      (mkResult
         (Stringified
            (JObject [("url", JString "http://a");
                      ("contentType", JString "text/html");
                      ("language", JString "en");
                      ("favicon", JString "http://a/favicon.ico")]))
         false)
    = Stringified (JObject ms)
    /\ List.Forall nonempty_string_member ms.
Proof.
  apply (preview_has_no_empty_member (serving true doc_untitled)
           (url_args "http://a") call_tool_ts _
           [mkRequest "http://a" 15000;
            mkRequest "http://a/favicon.ico" 3000]).
  - left. reflexivity.
  - reflexivity.
  - reflexivity.
Defined.

(* ===================================================================== *)
(** ** The shape of the extracted text *)
(* ===================================================================== *)

Section ShapeFacts.

Import JsString.

Lemma replace_ws_single_spaced (b : bool) (s : string) :
  single_spaced b (replace_ws_from b s) = true.
Proof.
  revert b; induction s as [|c s IH]; intros b; [reflexivity|].
  cbn [replace_ws_from].
  destruct (is_space c) eqn:E.
  - destruct b; [apply IH|].
    cbn [single_spaced]. change (is_space " "%char) with true.
    cbn. apply IH.
  - cbn [single_spaced]. rewrite E. apply IH.
Qed.

Lemma single_spaced_weaken (b : bool) (s : string) :
  single_spaced b s = true -> single_spaced false s = true.
Proof.
  destruct s as [|c s]; [reflexivity|]. cbn [single_spaced].
  destruct (is_space c); auto.
  rewrite !andb_true_iff. intros [[H1 _] H2]. auto.
Qed.

Lemma trimStart_single_spaced (b : bool) (s : string) :
  single_spaced b s = true -> single_spaced true (trimStart s) = true.
Proof.
  revert b; induction s as [|c s IH]; intros b; [reflexivity|].
  cbn [single_spaced trimStart].
  destruct (is_space c) eqn:E.
  - intros H. apply andb_true_iff in H as [_ H]. apply (IH true H).
  - intros H. cbn [single_spaced]. rewrite E. exact H.
Qed.

Lemma trimEnd_single_spaced (b : bool) (s : string) :
  single_spaced b s = true -> single_spaced b (trimEnd s) = true.
Proof.
  revert b; induction s as [|c s IH]; intros b; [reflexivity|].
  cbn [single_spaced trimEnd].
  destruct (is_space c) eqn:E.
  - intros H. apply andb_true_iff in H as [H1 H2].
    pose proof (IH true H2) as K.
    destruct (trimEnd s) as [|d t]; [reflexivity|].
    cbn [single_spaced] in *. rewrite E, H1. exact K.
  - intros H. pose proof (IH false H) as K.
    destruct (trimEnd s) as [|d t].
    + cbn [single_spaced]. rewrite E. reflexivity.
    + cbn [single_spaced] in *. rewrite E. exact K.
Qed.

Lemma prefix_single_spaced (b : bool) (n : nat) (s : string) :
  single_spaced b s = true ->
  single_spaced b (String.substring 0 n s) = true.
Proof.
  revert b n; induction s as [|c s IH]; intros b [|n]; try reflexivity.
  cbn [single_spaced String.substring].
  destruct (is_space c).
  - intros H. apply andb_true_iff in H as [H1 H2].
    rewrite H1. apply (IH true n H2).
  - apply IH.
Qed.

Lemma trimEnd_no_trailing_space (s : string) :
  ends_with_space (trimEnd s) = false.
Proof.
  induction s as [|c s IH]; [reflexivity|].
  cbn [trimEnd].
  destruct (trimEnd s) as [|d t].
  - destruct (is_space c) eqn:E; [reflexivity|]. cbn. exact E.
  - exact IH.
Qed.

Lemma trimEnd_keeps_head (c : ascii) (s : string) :
  is_space c = false -> starts_with_space (trimEnd (String c s)) = false.
Proof.
  intros H. cbn [trimEnd].
  destruct (trimEnd s); [rewrite H|]; cbn; exact H.
Qed.

Lemma trim_no_outer_space (s : string) :
  starts_with_space (trim s) = false /\ ends_with_space (trim s) = false.
Proof.
  unfold trim. split; [|apply trimEnd_no_trailing_space].
  pose proof (trimStart_head s) as H.
  destruct (trimStart s) as [|c t]; [reflexivity|].
  apply trimEnd_keeps_head, H.
Qed.

Lemma substring_0_all (n : nat) (s : string) :
  (String.length s <= n)%nat -> String.substring 0 n s = s.
Proof.
  revert n; induction s as [|c s IH]; intros [|n] H; cbn in *;
    try reflexivity; try lia.
  f_equal. apply IH. lia.
Qed.

Lemma normalised_single_spaced (boilerplate : list string)
  (doc : document) :
  single_spaced true (normalised_text boilerplate doc) = true
  /\ ends_with_space (normalised_text boilerplate doc) = false.
Proof.
  unfold normalised_text. split; [|apply trim_no_outer_space].
  unfold trim. apply trimEnd_single_spaced.
  apply (trimStart_single_spaced false). apply replace_ws_single_spaced.
Qed.

Lemma slice_to_negative (len k : nat) :
  slice_to len (of_Z (- Z.of_nat (S k))) = (len - S k)%nat.
Proof.
  unfold slice_to, of_Z, ToIntegerOrInfinity, truncate.
  cbn [Qnum Qden inject_Z]. rewrite Z.quot_1_r.
  destruct (- Z.of_nat (S k) <? 0)%Z eqn:E;
    [|apply Z.ltb_ge in E; lia].
  lia.
Qed.

End ShapeFacts.

(** X13: the text [get_page_content] returns for a fetched page is tidy:
    its only white-space characters are single plain spaces, never two in a
    row and never at the start, and when nothing was cut off it does not end
    with one either. *)
Theorem content_is_single_spaced (env : Env) (a : Arguments_)
  (r : Response) (html : string)
  (call : string -> Arguments_ -> M CallToolResult)
  (boilerplate : list string) :
  (call = call_tool_ts /\ boilerplate = boilerplate_ts)
  \/ (call = call_tool_js /\ boilerplate = boilerplate_js) ->
  page_outcome env (mkRequest (String_ (arg_url a)) 15000) = inr (r, html) ->
  exists s log,
    run (call "get_page_content" a) env
    = (inr (mkResult (Plain s) false), log)
    /\ single_spaced true s = true
    /\ ((String.length
           (normalised_text boilerplate (cheerio_load env html))
         <= String.length s)%nat ->
        ends_with_space s = false).
Proof.
  intros Hc Hp.
  assert (R : run (call "get_page_content" a) env
              = run (try_catch (get_page_content_branch boilerplate a)
                       on_error) env)
    by (destruct Hc as [[-> ->] | [-> ->]]; reflexivity).
  rewrite R, run_try_catch, get_page_content_run, Hp.
  eexists _, _. split; [reflexivity|].
  unfold extract_content.
  fold (normalised_text boilerplate (cheerio_load env html)).
  destruct (normalised_single_spaced boilerplate (cheerio_load env html))
    as (H1 & H2).
  split.
  - unfold string_slice0. apply prefix_single_spaced, H1.
  - rewrite string_slice0_length. intros Hl. unfold string_slice0.
    rewrite substring_0_all by exact Hl. exact H2.
Qed.

Lemma content_is_single_spaced_witness :
  exists s log,
    run (call_tool_ts "get_page_content" (url_args "http://a"))
      (serving true doc_fallbacks)
    = (inr (mkResult (Plain s) false), log)
    /\ single_spaced true s = true
    /\ ((String.length
           (normalised_text boilerplate_ts
              (cheerio_load (serving true doc_fallbacks) "<html>"))
         <= String.length s)%nat ->
        ends_with_space s = false).
Proof.
  apply (content_is_single_spaced (serving true doc_fallbacks)
           (url_args "http://a")
           (mkResponse true (Some "text/html") (inr "<html>")) "<html>"
           call_tool_ts boilerplate_ts).
  - left. split; reflexivity.
  - reflexivity.
Defined.

(** The text of [doc_fallbacks]: the article alone, tidied. *)
Example content_of_article :
  run (call_tool_ts "get_page_content" (url_args "http://a"))
    (serving true doc_fallbacks)
  = (inr (mkResult (Plain "Read me") false), [mkRequest "http://a" 15000]).
Proof. reflexivity. Qed.

(** X14: a negative [maxLength] is not refused: with [maxLength = -k] the
    text returned for a fetched page is the tidied page text without its
    last [k] characters. *)
Theorem negative_maxLength_cuts_the_end (env : Env) (a : Arguments_)
  (k : nat) (r : Response) (html : string)
  (call : string -> Arguments_ -> M CallToolResult)
  (boilerplate : list string) :
  (call = call_tool_ts /\ boilerplate = boilerplate_ts)
  \/ (call = call_tool_js /\ boilerplate = boilerplate_js) ->
  arg_maxLength a = Some (of_Z (- Z.of_nat (S k))) ->
  page_outcome env (mkRequest (String_ (arg_url a)) 15000) = inr (r, html) ->
  let full := normalised_text boilerplate (cheerio_load env html) in
  run (call "get_page_content" a) env
  = (inr (mkResult
            (Plain (String.substring 0 (String.length full - S k) full))
            false),
     [mkRequest (String_ (arg_url a)) 15000]).
Proof.
  intros Hc Ha Hp full.
  assert (R : run (call "get_page_content" a) env
              = run (try_catch (get_page_content_branch boilerplate a)
                       on_error) env)
    by (destruct Hc as [[-> ->] | [-> ->]]; reflexivity).
  rewrite R, run_try_catch, get_page_content_run, Hp.
  unfold extract_content. fold (normalised_text boilerplate
                                  (cheerio_load env html)). fold full.
  assert (E : effective_maxLength a = of_Z (- Z.of_nat (S k))).
  { unfold effective_maxLength. rewrite Ha. cbn [Number].
    apply truthy_number_kept. unfold of_Z, truthy.
    destruct (Qeq_bool _ 0) eqn:Q; [|reflexivity].
    apply Qeq_bool_iff in Q. unfold Qeq in Q. cbn in Q. lia. }
  rewrite E. unfold string_slice0. rewrite slice_to_negative. reflexivity.
Qed.

Lemma negative_maxLength_cuts_the_end_witness :
  run (call_tool_ts "get_page_content"
         (content_args "http://a" (of_Z (- Z.of_nat 3))))
    (serving true doc_fallbacks)
  = (inr (mkResult (Plain "Read") false), [mkRequest "http://a" 15000]).
Proof.
  apply (negative_maxLength_cuts_the_end (serving true doc_fallbacks)
           (content_args "http://a" (of_Z (- Z.of_nat 3))) 2
           (mkResponse true (Some "text/html") (inr "<html>")) "<html>"
           call_tool_ts boilerplate_ts).
  - left. split; reflexivity.
  - reflexivity.
  - reflexivity.
Defined.

(* ===================================================================== *)
(** ** Removal, for every listed element *)
(* ===================================================================== *)

Section RemoveFacts.

Variable tags : list string.

Lemma is_any_tag_element (t : string) (a a' : list (string * string))
  (cs cs' : list node) :
  is_any_tag tags (Element t a cs) = is_any_tag tags (Element t a' cs').
Proof. reflexivity. Qed.

Lemma is_any_tag_text (n : node) :
  tag_of n = None -> is_any_tag tags n = false.
Proof.
  destruct n as [d|d|t a cs]; [| |discriminate]; intros _;
    unfold is_any_tag; induction tags as [|x l IH]; cbn; auto.
Qed.

Lemma remove_node_clean (n : node) :
  List.Forall (fun m => is_any_tag tags m = false)
    (List.flat_map subtree (remove_node tags n)).
Proof.
  induction n as [d|d|t a cs IH] using node_induction.
  - repeat constructor. apply is_any_tag_text. reflexivity.
  - repeat constructor. apply is_any_tag_text. reflexivity.
  - cbn [remove_node].
    destruct (is_any_tag tags (Element t a cs)) eqn:E; [constructor|].
    cbn [List.flat_map subtree]. rewrite List.app_nil_r.
    constructor.
    + rewrite <- E. apply is_any_tag_element.
    + clear E. induction IH as [|c cs Hc Hcs IHcs]; [constructor|].
      cbn [List.flat_map]. rewrite List.flat_map_app.
      apply List.Forall_app. split; [exact Hc|exact IHcs].
Qed.

Lemma remove_node_again (n : node) :
  List.flat_map (remove_node tags) (remove_node tags n)
  = remove_node tags n.
Proof.
  induction n as [d|d|t a cs IH] using node_induction;
    try reflexivity.
  cbn [remove_node].
  destruct (is_any_tag tags (Element t a cs)) eqn:E; [reflexivity|].
  cbn [List.flat_map remove_node].
  rewrite (is_any_tag_element t a a
             (List.flat_map (remove_node tags) cs) cs), E.
  rewrite List.app_nil_r. do 2 f_equal.
  clear E. induction IH as [|c cs Hc Hcs IHcs]; [reflexivity|].
  cbn [List.flat_map]. rewrite List.flat_map_app, Hc, IHcs. reflexivity.
Qed.

End RemoveFacts.

(** X15: [remove] leaves no listed element behind, at any depth, and doing
    it a second time changes nothing; so the text of [get_page_content] is
    read from a document without [script], [style], [nav], [header],
    [footer], [iframe], [noscript] and [aside] (and, in [src/server.ts],
    [form] and [button]) elements. *)
Theorem remove_is_complete (tags : list string) (doc : document) :
  List.Forall (fun m => is_any_tag tags m = false)
    (all_nodes (remove tags doc))
  /\ remove tags (remove tags doc) = remove tags doc.
Proof.
  unfold all_nodes, remove. split.
  - induction doc as [|n doc IH]; [constructor|].
    cbn [List.flat_map]. rewrite List.flat_map_app.
    apply List.Forall_app. split; [apply remove_node_clean|exact IH].
  - induction doc as [|n doc IH]; [reflexivity|].
    cbn [List.flat_map]. rewrite List.flat_map_app, remove_node_again, IH.
    reflexivity.
Qed.

Section VariantFacts.

Lemma ts_tags_are_js_tags_and_two (n : node) :
  is_any_tag boilerplate_ts n
  = is_any_tag boilerplate_js n || has_tag "form" n || has_tag "button" n.
Proof.
  unfold is_any_tag, boilerplate_ts, boilerplate_js. cbn [existsb].
  rewrite !orb_false_r, !orb_assoc. reflexivity.
Qed.

Lemma remove_node_same (n : node) :
  List.Forall (fun m => has_tag "form" m = false
                        /\ has_tag "button" m = false) (subtree n) ->
  remove_node boilerplate_ts n = remove_node boilerplate_js n.
Proof.
  induction n as [d|d|t a cs IH] using node_induction; try reflexivity.
  cbn [subtree]. intros H. inversion H as [|x l [Hf Hb] Hl]; subst.
  cbn [remove_node].
  rewrite ts_tags_are_js_tags_and_two, Hf, Hb, !orb_false_r.
  destruct (is_any_tag boilerplate_js (Element t a cs)); [reflexivity|].
  do 2 f_equal.
  clear H Hf Hb. induction IH as [|c cs Hc Hcs IHcs]; [reflexivity|].
  cbn [List.flat_map] in *. apply List.Forall_app in Hl as [Hl1 Hl2].
  rewrite (Hc Hl1), (IHcs Hl2). reflexivity.
Qed.

Lemma remove_same (doc : document) :
  List.Forall (fun m => has_tag "form" m = false
                        /\ has_tag "button" m = false) (all_nodes doc) ->
  remove boilerplate_ts doc = remove boilerplate_js doc.
Proof.
  unfold all_nodes, remove.
  induction doc as [|n doc IH]; [reflexivity|].
  cbn [List.flat_map]. intros H. apply List.Forall_app in H as [H1 H2].
  rewrite (remove_node_same n H1), (IH H2). reflexivity.
Qed.

End VariantFacts.

(** X16: from one and the same parsed document the two builds extract the
    same text, for every limit, unless the document has a [form] or a
    [button] element: those two tags are all that the removal list of
    [src/server.ts] adds to that of the JavaScript build. *)
Theorem builds_extract_alike_without_forms (doc : document)
  (maxLength : number) :
  List.Forall (fun m => has_tag "form" m = false
                        /\ has_tag "button" m = false) (all_nodes doc) ->
  extract_content boilerplate_ts doc maxLength
  = extract_content boilerplate_js doc maxLength.
Proof.
  intros H. unfold extract_content, page_text.
  rewrite (remove_same doc H). reflexivity.
Qed.

Lemma builds_extract_alike_without_forms_witness :
  extract_content boilerplate_ts doc_script_echo (of_Z 5000)
  = extract_content boilerplate_js doc_script_echo (of_Z 5000).
Proof.
  apply (builds_extract_alike_without_forms doc_script_echo (of_Z 5000)).
  vm_compute. repeat constructor.
Defined.

(** On a document whose only text is in a form the two builds differ. *)
Example builds_differ_on_forms :
  let doc := page [] [Element "form" [] [Text "Subscribe"]] in
  extract_content boilerplate_ts doc (of_Z 5000) = EmptyString
  /\ extract_content boilerplate_js doc (of_Z 5000) = "Subscribe".
Proof. split; reflexivity. Qed.

(* ===================================================================== *)
(** ** More on search results and on missing arguments *)
(* ===================================================================== *)

Section CountFacts.

Lemma slice_integer {A : Type} (n : nat) (l : list A) :
  array_slice0 l (of_Z (Z.of_nat n)) = List.firstn n l.
Proof.
  unfold array_slice0. rewrite slice_to_integer.
  destruct (Nat.le_ge_cases n (List.length l)) as [H|H].
  - rewrite Nat.min_l by exact H. reflexivity.
  - rewrite Nat.min_r by exact H.
    rewrite List.firstn_all, List.firstn_all2 by exact H. reflexivity.
Qed.

Lemma extract_results_valid (doc : document) :
  extract_results doc = List.map record_of (valid_blocks doc).
Proof.
  unfold extract_results, valid_blocks.
  rewrite results_are_valid_blocks. reflexivity.
Qed.

Lemma positive_is_truthy (k : nat) :
  truthy (of_Z (Z.of_nat (S k))) = true.
Proof.
  unfold of_Z, truthy. destruct (Qeq_bool _ 0) eqn:Q; [|reflexivity].
  apply Qeq_bool_iff in Q. unfold Qeq in Q. cbn in Q. lia.
Qed.

Lemma valid_record (el : node) :
  block_valid el = true ->
  result_title (record_of el) <> EmptyString
  /\ result_url (record_of el) <> EmptyString.
Proof.
  unfold block_valid, record_of. cbn [result_title result_url].
  destruct (block_url el) as [u|]; [|discriminate].
  cbn [JsString.falsy]. rewrite negb_involutive.
  intros H. apply andb_true_iff in H as [H1 H2].
  split; apply truthy_true; assumption.
Qed.

End CountFacts.

(** X17: how many results [search_web] returns for a fetched results page:
    with [numResults] a positive integer [n], the records of the first
    [min n 10] valid blocks; with [numResults] missing, NaN or zero, those of
    the first 10. *)
Theorem search_web_count (env : Env) (a : Arguments_) (r : Response)
  (html : string) :
  let rq := mkRequest (search_url env (String_ (arg_query a))) 10000 in
  let records := List.map record_of (valid_blocks (cheerio_load env html)) in
  let answer n :=
    (inr (mkResult
            (Stringified
               (JArray (List.map result_json (List.firstn n records))))
            false), [rq]) in
  page_outcome env rq = inr (r, html) ->
  (forall k, arg_numResults a = Some (of_Z (Z.of_nat (S k))) ->
             run (call_tool_js "search_web" a) env
             = answer (Nat.min (S k) 10))
  /\ (truthy (Number (arg_numResults a)) = false ->
      run (call_tool_js "search_web" a) env = answer 10%nat).
Proof.
  intros rq records answer Hp.
  assert (R : forall n,
             effective_numResults a = of_Z (Z.of_nat n) ->
             run (call_tool_js "search_web" a) env
             = answer (Nat.min n 10)).
  { intros n E.
    change (run (call_tool_js "search_web" a) env)
      with (run (try_catch (search_web_branch a) on_error) env).
    rewrite run_try_catch, search_web_run. fold rq. rewrite Hp, E.
    change (of_Z 10) with (of_Z (Z.of_nat 10)).
    rewrite !slice_integer, List.firstn_firstn, extract_results_valid.
    reflexivity. }
  split.
  - intros k Hk. apply R. unfold effective_numResults. rewrite Hk.
    cbn [Number]. apply truthy_number_kept, positive_is_truthy.
  - intros Hf. change 10%nat with (Nat.min 10 10) at 1. apply R.
    unfold effective_numResults. apply falsy_number_default, Hf.
Qed.

Lemma search_web_count_witness :
  exists items,
    run (call_tool_js "search_web" (search_args "q" (of_Z (Z.of_nat 3))))
      (serving true doc_eleven_results)
    = (inr (mkResult (Stringified (JArray items)) false),
       [mkRequest "https://duckduckgo.com/html/?q=q&kl=us-en" 10000])
    /\ List.length items = 3%nat.
Proof.
  eexists. split.
  - apply (proj1 (search_web_count (serving true doc_eleven_results)
                    (search_args "q" (of_Z (Z.of_nat 3)))
                    (mkResponse true (Some "text/html") (inr "<html>"))
                    "<html>" eq_refl) 2%nat).
    reflexivity.
  - reflexivity.
Defined.

(** A block that is itself the [.result__title] container of its link is
    a valid block and gives a result. *)
Example title_block_is_found :
  run (call_tool_js "search_web" (search_args "q" (of_Z (Z.of_nat 5))))
    (serving true doc_title_block)
  = (inr (mkResult
            (Stringified
               (JArray [JObject [("title", JString "X");
                                 ("url", JString "https://example.org/x");
                                 ("snippet", JString EmptyString)]]))
            false),
     [mkRequest "https://duckduckgo.com/html/?q=q&kl=us-en" 10000]).
Proof. reflexivity. Qed.

(** X18: every result [searchWeb] returns has a non-empty title and a
    non-empty URL, and neither its title nor its snippet starts or ends
    with white space. *)
Theorem search_results_are_tidy (env : Env) (q : string)
  (log : list Request) (out : list SearchResult) (log' : list Request) :
  searchWeb q env log = (inr out, log') ->
  List.Forall
    (fun res =>
       result_title res <> EmptyString
       /\ result_url res <> EmptyString
       /\ starts_with_space (result_title res) = false
       /\ ends_with_space (result_title res) = false
       /\ starts_with_space (result_snippet res) = false
       /\ ends_with_space (result_snippet res) = false)
    out.
Proof.
  unfold searchWeb, bind, fetchWithTimeout, settle, ask, ret, throw.
  destruct (fetch env log _) as [e|r]; [discriminate|].
  destruct (body r) as [e|html]; [discriminate|].
  intros E. injection E as <- _.
  rewrite slice_ten, extract_results_valid.
  apply List.Forall_forall. intros res Hin.
  apply in_firstn, List.in_map_iff in Hin as (el & <- & Hel).
  apply List.filter_In in Hel as [_ Hv].
  destruct (valid_record el Hv) as (Ht & Hu).
  split; [exact Ht|]. split; [exact Hu|].
  unfold record_of, block_title, block_snippet.
  cbn [result_title result_snippet].
  repeat split; apply trim_no_outer_space.
Qed.

Lemma search_results_are_tidy_witness :
  List.Forall
    (fun res =>
       result_title res <> EmptyString
       /\ result_url res <> EmptyString
       /\ starts_with_space (result_title res) = false
       /\ ends_with_space (result_title res) = false
       /\ starts_with_space (result_snippet res) = false
       /\ ends_with_space (result_snippet res) = false)
    (List.firstn 10
       (List.map record_of (valid_blocks doc_eleven_results))).
Proof.
  apply (search_results_are_tidy (serving true doc_eleven_results) "q" []
           _ [mkRequest "https://duckduckgo.com/html/?q=q&kl=us-en" 10000]).
  reflexivity.
Defined.

(** X19: a missing [url] or [query] is not refused by [get_page_content]
    and [search_web]: [String(undefined)] stands in for it, so the page
    "undefined" is requested, and the word "undefined" is searched for. *)
Theorem missing_argument_becomes_undefined (env : Env) (a : Arguments_) :
  (arg_url a = None ->
   snd (run (call_tool_ts "get_page_content" a) env)
   = [mkRequest "undefined" 15000]
   /\ snd (run (call_tool_js "get_page_content" a) env)
      = [mkRequest "undefined" 15000])
  /\ (arg_query a = None ->
      snd (run (call_tool_js "search_web" a) env)
      = [mkRequest (search_url env "undefined") 10000]).
Proof.
  split.
  - intros H.
    rewrite call_get_page_content_ts, call_get_page_content_js.
    change (try_catch (get_page_content_branch boilerplate_ts a) on_error
              env [])
      with (run (try_catch (get_page_content_branch boilerplate_ts a)
                   on_error) env).
    change (try_catch (get_page_content_branch boilerplate_js a) on_error
              env [])
      with (run (try_catch (get_page_content_branch boilerplate_js a)
                   on_error) env).
    rewrite !snd_run_try_catch, !get_page_content_run, H.
    destruct (page_outcome env _) as [e|[r html]]; split; reflexivity.
  - intros H.
    change (run (call_tool_js "search_web" a) env)
      with (run (try_catch (search_web_branch a) on_error) env).
    rewrite snd_run_try_catch, search_web_run, H.
    destruct (page_outcome env _) as [e|[r html]]; reflexivity.
Qed.

Lemma missing_argument_becomes_undefined_witness :
  snd (run (call_tool_js "search_web" no_args) (offline doc_untitled))
  = [mkRequest "https://duckduckgo.com/html/?q=undefined&kl=us-en" 10000].
Proof.
  apply (proj2 (missing_argument_becomes_undefined (offline doc_untitled)
                  no_args)).
  reflexivity.
Defined.

Section EchoFacts.

Lemma lookup_member_hit (k : string) (v : option string)
  (rest : list (string * json)) :
  json_lookup k (member k v ++ rest)
  = match v with
    | Some s => Some (JString s)
    | None => json_lookup k rest
    end.
Proof.
  destruct v as [s|]; cbn; [rewrite String.eqb_refl|]; reflexivity.
Qed.

End EchoFacts.

(** X12: no meta tag can change what the preview says about the request
    itself.  In the object printed for a fetched page, [url] is the URL that
    was asked for (an [og:url] tag goes to [urlCanonical]), [contentType] is
    the [content-type] header of the response and [language] the [lang]
    attribute of the first [html] element, each left out when missing or
    empty. *)
Theorem preview_echoes_request (env : Env) (a : Arguments_)
  (call : string -> Arguments_ -> M CallToolResult)
  (r : Response) (html : string) :
  call = call_tool_ts \/ call = call_tool_js ->
  String_ (arg_url a) <> EmptyString ->
  page_outcome env (mkRequest (String_ (arg_url a)) 15000) = inr (r, html) ->
  exists j log,
    run (call "fetch_link_preview" a) env
    = (inr (mkResult (Stringified j) false), log)
    /\ json_member "url" j = Some (JString (String_ (arg_url a)))
    /\ json_member "contentType" j
       = option_map JString (JsString.or_undefined (content_type r))
    /\ json_member "language" j
       = option_map JString
           (JsString.or_undefined
              (attr "lang" (select (ByTag "html") (cheerio_load env html)))).
Proof.
  intros Hc Hu Hp.
  rewrite (call_fetch_link_preview call a env Hc).
  change (try_catch (fetch_link_preview_branch a) on_error env [])
    with (run (try_catch (fetch_link_preview_branch a) on_error) env).
  rewrite run_try_catch, fetch_link_preview_run.
  set (u := String_ (arg_url a)) in *.
  destruct u as [|c u'] eqn:Eu; [congruence|]. rewrite <- Eu in *.
  replace (negb (JsString.truthy u)) with false by (rewrite Eu; reflexivity).
  rewrite fetchLinkPreview_run, Hp.
  destruct (getFavicon_returns env u [mkRequest u 15000])
    as (icon & l & ->).
  eexists _, l. split; [reflexivity|].
  destruct (extract_preview_meta u r (cheerio_load env html))
    as (Mu & Mc & Ml).
  unfold preview_json, json_member.
  cbn [set_favicon url contentType language title description image
         siteName type urlCanonical twitterCard favicon].
  rewrite Mu, Mc, Ml.
  split; [reflexivity|].
  cbn [List.app json_lookup].
  change (String.eqb "contentType" "url") with false.
  change (String.eqb "language" "url") with false. cbv iota.
  split.
  - rewrite lookup_member_hit.
    destruct (JsString.or_undefined (content_type r)); [reflexivity|].
    repeat (rewrite lookup_member_skip by reflexivity).
    destruct icon; reflexivity.
  - rewrite lookup_member_skip by reflexivity.
    rewrite lookup_member_hit.
    destruct (JsString.or_undefined (attr "lang" _)); [reflexivity|].
    repeat (rewrite lookup_member_skip by reflexivity).
    destruct icon; reflexivity.
Qed.

Lemma preview_echoes_request_witness :
  exists j log,
    run (call_tool_js "fetch_link_preview" (url_args "http://a"))
      (serving true doc_fallbacks)
    = (inr (mkResult (Stringified j) false), log)
    /\ json_member "url" j = Some (JString "http://a")
    /\ json_member "contentType" j = Some (JString "text/html")
    /\ json_member "language" j = Some (JString "en").
Proof.
  apply (preview_echoes_request (serving true doc_fallbacks)
           (url_args "http://a") call_tool_js
           (mkResponse true (Some "text/html") (inr "<html>")) "<html>").
  - right. reflexivity.
  - discriminate.
  - reflexivity.
Defined.
